(** * simple_py_logger: the logger configuration object and its helpers

    A shallow embedding of [src/logger.py] (and of the three handler
    constructors of [src/handler_helpers.py] that it calls), together with
    the parts of the Python runtime they drive: the [logging] module's table
    of named loggers, the handler objects, and the few [os] calls used to
    resolve the log directory.

    Conventions.
    - A Python [str] is a [string]: its text in UTF-8, so that plain ASCII
      text is the string of its characters.  [str.upper] and [repr] depend
      on the Unicode tables of the interpreter; they are taken from the
      runtime ([PyRuntime]), of which only the ASCII part is fixed.
    - A Python object with identity (a handler) is a reference: its index in
      the world's heap.  A logger of the [logging] module is a singleton per
      name, so a reference to it is its name in the module's table.
    - Code that can raise returns a [Result]; code that reads or changes the
      process state threads it through the monad [M]. *)

From stdpp Require Import gmap strings list.
From Stdlib Require Import ZArith Ascii String.

#[local] Set Warnings "-clear-no-such-hyp".

Open Scope Z_scope.

(** ** Strings *)

Definition is_ascii_lower (c : ascii) : bool :=
  let n := nat_of_ascii c in ((97 <=? n)%nat && (n <=? 122)%nat)%bool.

Definition is_ascii_upper (c : ascii) : bool :=
  let n := nat_of_ascii c in ((65 <=? n)%nat && (n <=? 90)%nat)%bool.

Definition char_upper (c : ascii) : ascii :=
  if is_ascii_lower c then ascii_of_nat (nat_of_ascii c - 32) else c.

Definition char_lower (c : ascii) : ascii :=
  if is_ascii_upper c then ascii_of_nat (nat_of_ascii c + 32) else c.

(** The ASCII case mapping: the letters [a-z] go to [A-Z], every other
    character is kept.  This is what [s.upper()] gives on ASCII text. *)
Fixpoint str_upper (s : string) : string :=
  match s with
  | EmptyString => EmptyString
  | String c r => String (char_upper c) (str_upper r)
  end.

Definition is_ascii_char (c : ascii) : bool := (nat_of_ascii c <? 128)%nat.

(** The text is plain ASCII. *)
Fixpoint is_ascii (s : string) : bool :=
  match s with
  | EmptyString => true
  | String c r => is_ascii_char c && is_ascii r
  end.

(** The text functions of the interpreter that the module calls.
    [py_upper s] is [s.upper()]: the upper-casing of the Unicode database,
    under which characters outside ASCII can change, also into ASCII
    letters or into several characters; on ASCII text it is the ASCII
    mapping.  [py_repr s] is [repr(s)], with the quotes and escapes the
    interpreter chooses. *)
Class PyRuntime : Type := {
  py_upper : string -> string;
  py_repr : string -> string;
  py_upper_ascii : forall s, is_ascii s = true -> py_upper s = str_upper s
}.

(** A runtime for ASCII text: text outside ASCII is never handed to it by
    the sample processes below. *)
Definition ascii_runtime : PyRuntime :=
  {| py_upper := str_upper;
     py_repr := fun s => "'" +:+ s +:+ "'";
     py_upper_ascii := fun s _ => eq_refl |}.



(** Two strings are equal up to the case of the letters [a-z]: what a
    case-insensitive match is on ASCII text.  It is defined through
    lower-casing, independently of [str_upper]. *)
Fixpoint str_eq_nocase (s t : string) : bool :=
  match s, t with
  | EmptyString, EmptyString => true
  | String a s', String b t' =>
      bool_decide (char_lower a = char_lower b) && str_eq_nocase s' t'
  | _, _ => false
  end.

(** [str(x)] for [x : str | None] *)
Definition py_str (x : option string) : string :=
  match x with
  | None => "None"
  | Some s => s
  end.

(** [a or b] for [a, b : str | None]: an absent or empty [a] is falsy. *)
Definition py_or_str (a : option string) (b : string) : string :=
  match a with
  | None => b
  | Some s => if bool_decide (s = EmptyString) then b else s
  end.

(** ** Exceptions and the state-and-exception monad *)

Inductive PyExn : Type :=
| RuntimeError (msg : string)
| OSError (msg : string)
| KeyError (key : string)
| ValueError (msg : string)
| AttributeError (msg : string)
| UnboundLocalError (var : string).

Inductive Result (A : Type) : Type :=
| Ok (a : A)
| Raise (e : PyExn).

Arguments Ok {A} a.
Arguments Raise {A} e.

(** A computation over a state [S]: it returns or raises, and the state it
    leaves behind is kept in both cases (a raise does not undo the writes
    made before it). *)
Definition M (S A : Type) : Type := S -> Result A * S.

Definition ret {S A} (a : A) : M S A := fun s => (Ok a, s).

Definition raise {S A} (e : PyExn) : M S A := fun s => (Raise e, s).

Definition bind {S A B} (m : M S A) (k : A -> M S B) : M S B :=
  fun s =>
    match m s with
    | (Ok a, s') => k a s'
    | (Raise e, s') => (Raise e, s')
    end.

Notation "'let!' x ':=' m 'in' k" := (bind m (fun x => k))
  (at level 10, x name, m at level 100, k at level 200,
   format "'[v' 'let!'  x  ':='  m  'in' '/' k ']'").

Notation "m1 ';;;' m2" := (bind m1 (fun _ => m2))
  (at level 100, m2 at level 200, right associativity).

Definition modify {S} (f : S -> S) : M S unit := fun s => (Ok tt, f s).

(** [for x in l: body(x)] *)
Fixpoint for_each {S A} (l : list A) (body : A -> M S unit) : M S unit :=
  match l with
  | [] => ret tt
  | x :: r => body x ;;; for_each r body
  end.

(** [try: m  except Exception as e: handler(e)] *)
Definition try_except {S A} (m : M S A) (handler : PyExn -> M S A) : M S A :=
  fun s =>
    match m s with
    | (Ok a, s') => (Ok a, s')
    | (Raise e, s') => handler e s'
    end.

(** ** The operating system, as far as the module uses it

    [existing] is the set of path strings for which [os.path.exists] holds.
    [mkdir_error p] is what the system answers when [p] is created as a
    directory: [None] when the call succeeds, the error text when it fails
    (permissions, a missing parent, ...).  [open_answer p mode encoding
    errors] is what [open] answers when a file handler with these arguments
    opens its file [p]: [None] when the file is opened, the exception
    otherwise (an invalid mode or encoding, a missing file in a reading
    mode, a refusal of the system).
    [also_created p] are the other path strings that come to exist when [p]
    is created: the other spellings of [p] ([p/], [./], doubled slashes,
    links) and the parents that are created with it. *)
Record OS : Type := {
  cwd : string;
  existing : gset string;
  mkdir_error : string -> option string;
  open_answer :
    string -> string -> option string -> option string -> option PyExn;
  also_created : string -> gset string
}.

(** The answer to the open that the class uses for its log files: for
    appending, with the default encoding and error policy. *)
Definition open_error (o : OS) (p : string) : option PyExn :=
  open_answer o p "a" None None.

Definition os_add_path (p : string) (o : OS) : OS :=
  {| cwd := cwd o; existing := {[p]} ∪ also_created o p ∪ existing o;
     mkdir_error := mkdir_error o; open_answer := open_answer o;
     also_created := also_created o |}.

(** ** Formatters and handlers of the [logging] runtime *)

Record Formatter : Type := { fmt : string; style : string }.

Inductive Stream : Type := sys_stdout | sys_stderr.

(** The handler classes that [logger.py] instantiates, with the arguments
    their constructors were given. *)
Inductive HandlerKind : Type :=
| StreamHandler (stream : Stream)
| RichHandler (markup rich_tracebacks : bool)
| FileHandler (filename mode : string) (encoding : option string)
    (delay : bool) (errors : option string).

Record Handler : Type := {
  h_kind : HandlerKind;
  h_formatter : option Formatter;
  h_level : Z
}.

(** A logger object of the runtime: its threshold, whether records are
    forwarded to the parent, and the attached handlers (references). *)
Record PyLogger : Type := {
  lg_level : Z;
  lg_propagate : bool;
  lg_handlers : list nat
}.

(** ** The process state

    [heap] holds the handler objects (a reference is an index), [loggers]
    is the table of the named loggers created so far, [stdout] what was
    printed. *)
Record World : Type := {
  w_os : OS;
  stdout : list string;
  heap : list Handler;
  loggers : gmap string PyLogger
}.

Definition with_os (f : OS -> OS) (w : World) : World :=
  {| w_os := f (w_os w); stdout := stdout w; heap := heap w;
     loggers := loggers w |}.

Definition with_stdout (f : list string -> list string) (w : World) : World :=
  {| w_os := w_os w; stdout := f (stdout w); heap := heap w;
     loggers := loggers w |}.

Definition with_heap (f : list Handler -> list Handler) (w : World) : World :=
  {| w_os := w_os w; stdout := stdout w; heap := f (heap w);
     loggers := loggers w |}.

Definition with_loggers
    (f : gmap string PyLogger -> gmap string PyLogger) (w : World) : World :=
  {| w_os := w_os w; stdout := stdout w; heap := heap w;
     loggers := f (loggers w) |}.

(** [print(msg)] *)
Definition print (msg : string) : M World unit :=
  modify (with_stdout (fun out => out ++ [msg])).

Section exceptions.
Context `{RT : PyRuntime}.

(** [str(e)] of an exception *)
Definition exn_str (e : PyExn) : string :=
  match e with
  | RuntimeError m | OSError m | ValueError m | AttributeError m => m
  | KeyError k => py_repr k
  | UnboundLocalError v =>
      "cannot access local variable '" +:+ v
        +:+ "' where it is not associated with a value"
  end.

End exceptions.

Module os.

Definition getcwd : M World string := fun w => (Ok (cwd (w_os w)), w).

(** [os.path.exists(p)] *)
Definition path_exists (p : string) : M World bool :=
  fun w => (Ok (bool_decide (p ∈ existing (w_os w))), w).

(** [os.makedirs(p, exist_ok=...)]: a directory that was created exists
    afterwards, with what the system creates along with it. *)
Definition makedirs (p : string) (exist_ok : bool) : M World unit :=
  fun w =>
    match mkdir_error (w_os w) p with
    | Some e => (Raise (OSError e), w)
    | None =>
        if bool_decide (p ∈ existing (w_os w)) then
          if exist_ok then (Ok tt, w)
          else (Raise (OSError ("File exists: " +:+ p)), w)
        else (Ok tt, with_os (os_add_path p) w)
    end.

End os.

(** The [open] that a file handler performs for the file name, mode,
    encoding and error policy it was constructed with, the stream dropped:
    a file that was opened exists afterwards, whether the call created it
    or found it. *)
Definition py_open (p mode : string) (encoding errors : option string)
    : M World unit :=
  fun w =>
    match open_answer (w_os w) p mode encoding errors with
    | Some e => (Raise e, w)
    | None => (Ok tt, with_os (os_add_path p) w)
    end.

(** ** The [logging] module *)

(** [l.remove(x)] on a list that contains [x]: the first occurrence goes. *)
Fixpoint list_remove_first (x : nat) (l : list nat) : list nat :=
  match l with
  | [] => []
  | y :: r => if bool_decide (y = x) then r else y :: list_remove_first x r
  end.

Module logging.

Definition NOTSET : Z := 0.
Definition DEBUG : Z := 10.
Definition INFO : Z := 20.
Definition WARNING : Z := 30.
Definition ERROR : Z := 40.
Definition CRITICAL : Z := 50.

Definition _nameToLevel : list (string * Z) :=
  [ ("CRITICAL", CRITICAL); ("FATAL", CRITICAL); ("ERROR", ERROR);
    ("WARN", WARNING); ("WARNING", WARNING); ("INFO", INFO);
    ("DEBUG", DEBUG); ("NOTSET", NOTSET) ].

Fixpoint assoc (k : string) (l : list (string * Z)) : option Z :=
  match l with
  | [] => None
  | (k', v) :: r => if bool_decide (k' = k) then Some v else assoc k r
  end.

(** [_checkLevel(level)] for [level : int | str] *)
Definition _checkLevel {S} (level : Z + string) : M S Z :=
  match level with
  | inl n => ret n
  | inr name =>
      match assoc name _nameToLevel with
      | Some n => ret n
      | None => raise (ValueError ("Unknown level: '" +:+ name +:+ "'"))
      end
  end.

(** A logger as [getLogger] creates it. *)
Definition new_logger (name : string) : PyLogger :=
  {| lg_level := if bool_decide (name = "root") then WARNING else NOTSET;
     lg_propagate := true;
     lg_handlers := [] |}.

(** The object behind a logger reference. *)
Definition logger_obj (w : World) (l : string) : PyLogger :=
  default (new_logger l) (loggers w !! l).

Definition update_logger (l : string) (f : PyLogger -> PyLogger)
    (w : World) : World :=
  with_loggers (fun t => <[l := f (logger_obj w l)]> t) w.

(** The empty name and ["root"] both name the root logger. *)
Definition logger_key (name : string) : string :=
  if bool_decide (name = EmptyString) then "root" else name.

(** [logging.getLogger(name)]: one logger per name, created on first use. *)
Definition getLogger (name : string) : M World string :=
  fun w =>
    let key := logger_key name in
    match loggers w !! key with
    | Some _ => (Ok key, w)
    | None => (Ok key, with_loggers (fun t => <[key := new_logger key]> t) w)
    end.

(** The attribute writes of the logger methods. *)
Definition set_lg_level (n : Z) (o : PyLogger) : PyLogger :=
  {| lg_level := n; lg_propagate := lg_propagate o;
     lg_handlers := lg_handlers o |}.

Definition set_lg_propagate (b : bool) (o : PyLogger) : PyLogger :=
  {| lg_level := lg_level o; lg_propagate := b;
     lg_handlers := lg_handlers o |}.

Definition set_lg_handlers (hs : list nat) (o : PyLogger) : PyLogger :=
  {| lg_level := lg_level o; lg_propagate := lg_propagate o;
     lg_handlers := hs |}.

(** [if not (hdlr in self.handlers): self.handlers.append(hdlr)] *)
Definition add_hdlr (hdlr : nat) (o : PyLogger) : PyLogger :=
  if bool_decide (hdlr ∈ lg_handlers o) then o
  else set_lg_handlers (lg_handlers o ++ [hdlr]) o.

(** [if hdlr in self.handlers: self.handlers.remove(hdlr)] *)
Definition remove_hdlr (hdlr : nat) (o : PyLogger) : PyLogger :=
  if bool_decide (hdlr ∈ lg_handlers o)
  then set_lg_handlers (list_remove_first hdlr (lg_handlers o)) o
  else o.

(** [logger.setLevel(level)] *)
Definition Logger_setLevel (l : string) (level : Z + string) : M World unit :=
  let! lv := _checkLevel level in
  modify (update_logger l (set_lg_level lv)).

(** [logger.propagate = b] *)
Definition Logger_set_propagate (l : string) (b : bool) : M World unit :=
  modify (update_logger l (set_lg_propagate b)).

(** [logger.addHandler(hdlr)]: appended unless already attached. *)
Definition Logger_addHandler (l : string) (hdlr : nat) : M World unit :=
  modify (update_logger l (add_hdlr hdlr)).

(** [logger.removeHandler(hdlr)]: removed when attached. *)
Definition Logger_removeHandler (l : string) (hdlr : nat) : M World unit :=
  modify (update_logger l (remove_hdlr hdlr)).

(** [logger.handlers] *)
Definition Logger_handlers (l : string) : M World (list nat) :=
  fun w => (Ok (lg_handlers (logger_obj w l)), w).

(** Allocation of a handler object: the reference is the next heap index. *)
Definition new_handler (h : Handler) : M World nat :=
  fun w => (Ok (List.length (heap w)), with_heap (fun hp => hp ++ [h]) w).

(** [logging.StreamHandler(stream)] *)
Definition new_StreamHandler (stream : Stream) : M World nat :=
  new_handler
    {| h_kind := StreamHandler stream; h_formatter := None;
       h_level := NOTSET |}.

(** [logging.FileHandler(filename, mode, encoding, delay, errors)]: the file
    is opened at once, with the given mode, encoding and error policy,
    unless [delay] is set. *)
Definition new_FileHandler (filename mode : string) (encoding : option string)
    (delay : bool) (errors : option string) : M World nat :=
  (if delay then ret tt else py_open filename mode encoding errors) ;;;
  new_handler
    {| h_kind := FileHandler filename mode encoding delay errors;
       h_formatter := None; h_level := NOTSET |}.

(** [handler.setFormatter(f)] *)
Definition Handler_setFormatter (h : nat) (f : Formatter) : M World unit :=
  modify (with_heap (fun hp =>
    match hp !! h with
    | Some o =>
        <[h := {| h_kind := h_kind o; h_formatter := Some f;
                  h_level := h_level o |}]> hp
    | None => hp
    end)).

(** [handler.setLevel(n)] for an integer level *)
Definition Handler_setLevel (h : nat) (n : Z) : M World unit :=
  modify (with_heap (fun hp =>
    match hp !! h with
    | Some o =>
        <[h := {| h_kind := h_kind o; h_formatter := h_formatter o;
                  h_level := n |}]> hp
    | None => hp
    end)).

End logging.

(** [rich.logging.RichHandler(level, markup, rich_tracebacks)] *)
Definition new_RichHandler (level : Z) (markup rich_tracebacks : bool)
    : M World nat :=
  logging.new_handler
    {| h_kind := RichHandler markup rich_tracebacks; h_formatter := None;
       h_level := level |}.

(** ** [handler_helpers.py] *)

Definition create_console_handler (log_level_int : Z) (formatter : Formatter)
    (stream : Stream) : M World nat :=
  let! console_h := logging.new_StreamHandler stream in
  logging.Handler_setFormatter console_h formatter ;;;
  logging.Handler_setLevel console_h log_level_int ;;;
  ret console_h.

Definition create_rich_console_handler (log_level_int : Z)
    (formatter : Formatter) (markup rich_tracebacks : bool) : M World nat :=
  let! rich_console_h :=
    new_RichHandler log_level_int markup rich_tracebacks in
  logging.Handler_setFormatter rich_console_h formatter ;;;
  logging.Handler_setLevel rich_console_h log_level_int ;;;
  ret rich_console_h.

Definition create_file_handler (log_level_int : Z) (formatter : Formatter)
    (log_path mode : string) (encoding : option string) (delay : bool)
    (errors : option string) : M World nat :=
  let! file_h :=
    logging.new_FileHandler log_path mode encoding delay errors in
  logging.Handler_setFormatter file_h formatter ;;;
  logging.Handler_setLevel file_h log_level_int ;;;
  ret file_h.

(** ** Python dictionaries with string keys

    A [dict] keeps its keys in insertion order, which is the order in which
    [setup_logger] attaches the handlers; assigning to a key that is present
    replaces the value in place. *)
Definition dict (V : Type) : Type := list (string * V).

Fixpoint dict_get {V} (d : dict V) (k : string) : option V :=
  match d with
  | [] => None
  | (k', v) :: r => if bool_decide (k' = k) then Some v else dict_get r k
  end.

(** [k in d] *)
Definition dict_contains {V} (d : dict V) (k : string) : bool :=
  match dict_get d k with
  | Some _ => true
  | None => false
  end.

(** [d[k] = v] *)
Fixpoint dict_set {V} (d : dict V) (k : string) (v : V) : dict V :=
  match d with
  | [] => [(k, v)]
  | (k', v') :: r =>
      if bool_decide (k' = k) then (k', v) :: r
      else (k', v') :: dict_set r k v
  end.

Definition dict_keys {V} (d : dict V) : list string := map fst d.

(** [d[k]] as an expression: a missing key raises. *)
Definition dict_getitem {S V} (d : dict V) (k : string) : M S V :=
  match dict_get d k with
  | Some v => ret v
  | None => raise (KeyError k)
  end.

Definition gmap_getitem {S V} (d : gmap string V) (k : string) : M S V :=
  match d !! k with
  | Some v => ret v
  | None => raise (KeyError k)
  end.

(** ** [logger.py]: module-level helpers *)

Section helpers.
Context `{RT : PyRuntime}.

Definition _check_path (user_path : string) : M World bool :=
  let! found := os.path_exists user_path in
  if negb found then ret false else ret true.

Definition _std_log_level (log_level_str : option string) : Z :=
  let log_level_str :=
    match log_level_str with
    | None => "DEBUG"
    | Some s => s
    end in
  let subject := py_upper log_level_str in
  if bool_decide (subject = "DEBUG") then logging.DEBUG
  else if bool_decide (subject = "INFO") then logging.INFO
  else if bool_decide (subject = "WARNING") then logging.WARNING
  else if bool_decide (subject = "ERROR") then logging.ERROR
  else if bool_decide (subject = "CRITICAL") then logging.CRITICAL
  else logging.INFO.


(** The fallback branch of [_derive_log_path]: the [logs] directory under
    the working directory, created when it is missing. *)
Definition derive_default_dir (cwd_path : string) : M World string :=
  let log_dir := cwd_path +:+ "/logs" in
  try_except
    (let! found := os.path_exists log_dir in
     if negb found then os.makedirs log_dir true else ret tt)
    (fun e => raise (RuntimeError ("Error resolving log path: " +:+ exn_str e))) ;;;
  ret log_dir.

Definition _derive_log_path (log_path : option string) : M World string :=
  let! cwd_path := os.getcwd in
  match log_path with
  | None => derive_default_dir cwd_path
  | Some p =>
      let! found := _check_path ((cwd_path +:+ "/") +:+ p) in
      if negb found then derive_default_dir cwd_path
      else ret ((cwd_path +:+ "/") +:+ p)
  end.

(** [a or b] for an integer [a] and a string [b]: zero is falsy. *)
Definition py_or_level (a : Z) (b : string) : Z + string :=
  if bool_decide (a = 0) then inr b else inl a.

Definition newline : string := String (ascii_of_nat 10) EmptyString.

(** [repr(k)] of a key in a warning, for [k : str | None] *)
Definition key_repr (k : option string) : string :=
  match k with
  | Some s => py_repr s
  | None => "None"
  end.

End helpers.

(** ** [logger.py]: class [Logger]

    The attributes of an instance.  [logger] refers to a logger of the
    runtime by its name; [log_path], [formatters] and [handlers] are never
    [None] once [__init__] has filled them. *)
Module Logger.

Record t : Type := mk {
  module_name : string;
  log_path : string;
  log_level : string;
  log_level_int : Z;
  logger : option string;
  formatters : gmap string Formatter;
  handlers : dict nat
}.

Definition DEFAULT_FORMATTER : Formatter :=
  {| fmt := "{name}_{asctime} LEVEL: {levelname} - {pathname} + MESSAGE: {message}";
     style := "{" |}.

(** A method runs on the instance and the process state. *)
Definition State : Type := t * World.

Section methods.
Context `{RT : PyRuntime}.

Definition self : M State t := fun st => (Ok (fst st), st).

Definition liftW {A} (m : M World A) : M State A :=
  fun st => let (r, w') := m (snd st) in (r, (fst st, w')).

Definition with_logger (l : option string) (this : t) : t :=
  mk (module_name this) (log_path this) (log_level this)
     (log_level_int this) l (formatters this) (handlers this).

Definition with_formatters (f : gmap string Formatter) (this : t) : t :=
  mk (module_name this) (log_path this) (log_level this)
     (log_level_int this) (logger this) f (handlers this).

Definition with_handlers (h : dict nat) (this : t) : t :=
  mk (module_name this) (log_path this) (log_level this)
     (log_level_int this) (logger this) (formatters this) h.

(** Assignment to an attribute of [self]. *)
Definition set_logger (l : option string) : M State unit :=
  modify (fun st : State => (with_logger l st.1, st.2)).

Definition set_formatters (f : gmap string Formatter) : M State unit :=
  modify (fun st : State => (with_formatters f st.1, st.2)).

Definition set_handlers (h : dict nat) : M State unit :=
  modify (fun st : State => (with_handlers h st.1, st.2)).

(** [self.handlers[k] = h] *)
Definition handlers_setitem (k : string) (h : nat) : M State unit :=
  let! this := self in
  set_handlers (dict_set (handlers this) k h).

(** [self.formatters[k] = f] *)
Definition formatters_setitem (k : string) (f : Formatter) : M State unit :=
  let! this := self in
  set_formatters (<[k := f]> (formatters this)).

(** [self.logger] where a method is called on it: [None] has none. *)
Definition live_logger (method : string) : M State string :=
  let! this := self in
  match logger this with
  | Some l => ret l
  | None =>
      raise (AttributeError
        ("'NoneType' object has no attribute '" +:+ method +:+ "'"))
  end.

Definition reset_handlers_logger : M State bool :=
  let! this := self in
  match logger this with
  | Some l =>
      let! attached := liftW (logging.Logger_handlers l) in
      match attached with
      | [] => ret true
      | _ =>
          for_each attached (fun handler =>
            liftW (logging.Logger_removeHandler l handler)) ;;;
          ret true
      end
  | None => ret false
  end.

Definition remove_handler_logger (handler_key : string) : M State bool :=
  let! this := self in
  if dict_contains (handlers this) handler_key then
    let! l := live_logger "removeHandler" in
    let! h := dict_getitem (handlers this) handler_key in
    liftW (logging.Logger_removeHandler l h) ;;;
    ret true
  else ret false.

Definition add_handler_logger (handler_key : string) : M State bool :=
  let! this := self in
  if dict_contains (handlers this) handler_key then
    let! l := live_logger "addHandler" in
    let! h := dict_getitem (handlers this) handler_key in
    liftW (logging.Logger_addHandler l h) ;;;
    ret true
  else ret false.

Definition get_all_handlers : M State (dict nat) :=
  let! this := self in
  ret (handlers this).

(** The local [h] is unbound until one of the assignments runs; returning
    it unbound raises.  The handler for exceptions other than [KeyError]
    cannot run for a string key and is left out. *)
Definition get_handler (handler_key : string) : M State nat :=
  let! this := self in
  let! h :=
    match dict_get (handlers this) handler_key with
    | Some v => ret (Some v)
    | None =>
        liftW (print
          ("Warning: obtaining handler that does not exists: "
             +:+ key_repr (Some handler_key) +:+ newline
             +:+ "    Returning default console handler instead.")) ;;;
        let h : option nat := None in
        let h :=
          if dict_contains (handlers this) "console_handler"
          then dict_get (handlers this) "console_handler" else h in
        let h :=
          if dict_contains (handlers this) "file_handler"
          then dict_get (handlers this) "file_handler" else h in
        let h :=
          if dict_contains (handlers this) "rich_console_handler"
          then dict_get (handlers this) "rich_console_handler" else h in
        ret h
    end in
  match h with
  | Some v => ret v
  | None => raise (UnboundLocalError "h")
  end.

Definition update_handlers_list (handler_key : string) (handler : nat)
    : M State unit :=
  handlers_setitem handler_key handler.

Definition reset_handlers_list : M State unit :=
  set_handlers [] ;;;
  let! this := self in
  let! formatter := gmap_getitem (formatters this) "default_formatter" in
  let! console_h :=
    liftW (create_console_handler (log_level_int this) formatter sys_stdout) in
  handlers_setitem "console_handler" console_h ;;;
  let! this := self in
  let! formatter := gmap_getitem (formatters this) "default_formatter" in
  let! file_h :=
    liftW (create_file_handler (log_level_int this) formatter
             ((log_path this +:+ "/") +:+ module_name this)
             "a" None false None) in
  handlers_setitem "file_handler" file_h.

Definition get_all_formatters : M State (gmap string Formatter) :=
  let! this := self in
  ret (formatters this).

(** As in [get_handler], only the [KeyError] handler can run; a [None] key
    is in no registry. *)
Definition get_formatter (formatter_key : option string) : M State Formatter :=
  let! this := self in
  match formatter_key ≫= (fun k => formatters this !! k) with
  | Some f => ret f
  | None =>
      liftW (print
        ("Warning: obtaining formatter that does not exists: "
           +:+ key_repr formatter_key +:+ newline
           +:+ "    Returning default formatter instead.")) ;;;
      gmap_getitem (formatters this) "default_formatter"
  end.

Definition update_formatters_list (formatter_key : string)
    (formatter : Formatter) : M State unit :=
  formatters_setitem formatter_key formatter.

Definition reset_formatters_list : M State unit :=
  set_formatters ∅ ;;;
  formatters_setitem "default_formatter" DEFAULT_FORMATTER.

Definition get_current_logger : M State (option string) :=
  let! this := self in
  ret (logger this).

Definition setup_logger (module_name log_level : option string)
    : M State unit :=
  let! this := self in
  let! lg :=
    liftW (logging.getLogger
             (py_or_str module_name (Logger.module_name this))) in
  liftW (logging.Logger_setLevel lg
           (py_or_level (_std_log_level log_level) (Logger.log_level this))) ;;;
  reset_handlers_logger ;;;
  liftW (logging.Logger_set_propagate lg false) ;;;
  let! this := self in
  for_each (dict_keys (handlers this)) (fun key =>
    let! this := self in
    let! h := dict_getitem (handlers this) key in
    liftW (logging.Logger_addHandler lg h)) ;;;
  set_logger (Some lg).

(** The statements of [__init__] that follow the base-class initialiser:
    the two default handlers are created and registered, and the logger is
    set up. *)
Definition init_handlers : M State unit :=
  let! this := self in
  let! formatter := gmap_getitem (formatters this) "default_formatter" in
  let! rich_h :=
    liftW (create_rich_console_handler (log_level_int this) formatter
             true true) in
  handlers_setitem "rich_console_handler" rich_h ;;;
  let! this := self in
  let! formatter := gmap_getitem (formatters this) "default_formatter" in
  let! file_h :=
    liftW (create_file_handler (log_level_int this) formatter
             (((log_path this +:+ "/") +:+ module_name this) +:+ ".log")
             "a" None false None) in
  handlers_setitem "file_handler" file_h ;;;
  let! this := self in
  setup_logger (Some (module_name this)) (Some (log_level this)).

(** [Logger(module_name, log_path, log_level)]: the base-class initialiser
    sets the attributes, then [init_handlers] runs.  A raise leaves no
    instance. *)
Definition __init__ (module_name : string) (log_path log_level : option string)
    : M World t :=
  let! dir := _derive_log_path log_path in
  let fresh :=
    mk module_name dir (py_upper (py_str log_level))
       (_std_log_level log_level) None
       {[ "default_formatter" := DEFAULT_FORMATTER ]} [] in
  fun w =>
    match init_handlers (fresh, w) with
    | (Ok _, (this, w')) => (Ok this, w')
    | (Raise e, (_, w')) => (Raise e, w')
    end.

End methods.

End Logger.

(** ** Observations *)

(** Two process states that differ at most in the table of loggers. *)
Definition same_outside_loggers (w w' : World) : Prop :=
  w_os w' = w_os w /\ stdout w' = stdout w /\ heap w' = heap w.

(** The handlers attached to a logger, and its threshold. *)
Definition attached (w : World) (l : string) : list nat :=
  lg_handlers (logging.logger_obj w l).

Definition threshold (w : World) (l : string) : Z :=
  lg_level (logging.logger_obj w l).

(** The values of the handler registry of an instance, as a predicate and
    as the list that a loop over the keys visits. *)
Definition in_registry (this : Logger.t) (h : nat) : Prop :=
  exists k, dict_get (Logger.handlers this) k = Some h.

Definition registry_values (this : Logger.t) : list nat :=
  omap (dict_get (Logger.handlers this)) (dict_keys (Logger.handlers this)).

(** The attached set of the live logger is the value set of the registry. *)
Definition synced (st : Logger.State) : Prop :=
  exists l, Logger.logger st.1 = Some l /\
    forall h, h ∈ attached st.2 l <-> in_registry st.1 h.

(** The public operations of an instance, and running one of them (its
    result is dropped, its effect and a possible raise are kept). *)
Inductive Op : Type :=
| OpResetHandlersLogger
| OpRemoveHandlerLogger (handler_key : string)
| OpAddHandlerLogger (handler_key : string)
| OpGetAllHandlers
| OpGetHandler (handler_key : string)
| OpUpdateHandlersList (handler_key : string) (handler : nat)
| OpResetHandlersList
| OpGetAllFormatters
| OpGetFormatter (formatter_key : option string)
| OpUpdateFormattersList (formatter_key : string) (formatter : Formatter)
| OpResetFormattersList
| OpGetCurrentLogger
| OpSetupLogger (module_name log_level : option string).

Section operations.
Context `{RT : PyRuntime}.

Definition run_op (op : Op) : M Logger.State unit :=
  match op with
  | OpResetHandlersLogger => Logger.reset_handlers_logger ;;; ret tt
  | OpRemoveHandlerLogger k => Logger.remove_handler_logger k ;;; ret tt
  | OpAddHandlerLogger k => Logger.add_handler_logger k ;;; ret tt
  | OpGetAllHandlers => Logger.get_all_handlers ;;; ret tt
  | OpGetHandler k => Logger.get_handler k ;;; ret tt
  | OpUpdateHandlersList k h => Logger.update_handlers_list k h
  | OpResetHandlersList => Logger.reset_handlers_list
  | OpGetAllFormatters => Logger.get_all_formatters ;;; ret tt
  | OpGetFormatter k => Logger.get_formatter k ;;; ret tt
  | OpUpdateFormattersList k f => Logger.update_formatters_list k f
  | OpResetFormattersList => Logger.reset_formatters_list
  | OpGetCurrentLogger => Logger.get_current_logger ;;; ret tt
  | OpSetupLogger n l => Logger.setup_logger n l
  end.

(** The instances a program can hold: built by [__init__], then used
    through the public operations, in any state of the process (other code
    may have run in between). *)
Inductive constructed : Logger.t -> Prop :=
| constructed_init name dir lvl w this w' :
    Logger.__init__ name dir lvl w = (Ok this, w') ->
    constructed this
| constructed_step this op w r this' w' :
    constructed this ->
    run_op op (this, w) = (r, (this', w')) ->
    constructed this'.

End operations.

(** The two handlers that [__init__] registers, as they are on the heap. *)
Definition rich_default (n : Z) (f : Formatter) : Handler :=
  {| h_kind := RichHandler true true; h_formatter := Some f; h_level := n |}.

Definition file_default (n : Z) (f : Formatter) (path : string) : Handler :=
  {| h_kind := FileHandler path "a" None false None; h_formatter := Some f;
     h_level := n |}.

(** How one public operation can leave the attributes of the instance:
    unchanged, with one registry entry written, with a registry reseeded,
    or with the live logger rebound.  [self_reset_handlers] covers the
    raises inside [reset_handlers_list] as well. *)
Inductive self_step (this : Logger.t) : Logger.t -> Prop :=
| self_same : self_step this this
| self_set_handler k h :
    self_step this
      (Logger.with_handlers (dict_set (Logger.handlers this) k h) this)
| self_reset_handlers_none :
    Logger.formatters this !! "default_formatter" = None ->
    self_step this (Logger.with_handlers [] this)
| self_reset_handlers_console c :
    self_step this (Logger.with_handlers [("console_handler", c)] this)
| self_reset_handlers c f :
    self_step this
      (Logger.with_handlers [("console_handler", c); ("file_handler", f)] this)
| self_set_formatter k f :
    self_step this
      (Logger.with_formatters (<[k := f]> (Logger.formatters this)) this)
| self_reset_formatters :
    self_step this
      (Logger.with_formatters
         {[ "default_formatter" := Logger.DEFAULT_FORMATTER ]} this)
| self_set_logger l :
    self_step this (Logger.with_logger (Some l) this).

(** The fallback of [get_handler] as the code orders it: the last of the
    three assignments that runs wins. *)
Definition fallback_choice (d : dict nat) : option nat :=
  match dict_get d "rich_console_handler" with
  | Some h => Some h
  | None =>
      match dict_get d "file_handler" with
      | Some h => Some h
      | None => dict_get d "console_handler"
      end
  end.

(** What holds of every instance a program can hold: the default formatter
    is registered, a live logger is bound, and [get_handler] has a fallback
    to return. *)
Definition instance_ok (this : Logger.t) : Prop :=
  is_Some (Logger.formatters this !! "default_formatter")
  /\ is_Some (Logger.logger this)
  /\ is_Some (fallback_choice (Logger.handlers this)).

(** The fallback in the order the specification words it: console first,
    then file, then rich-console. *)
Definition spec_fallback_choice (d : dict nat) : option nat :=
  match dict_get d "console_handler" with
  | Some h => Some h
  | None =>
      match dict_get d "file_handler" with
      | Some h => Some h
      | None => dict_get d "rich_console_handler"
      end
  end.

(** ** Sample process states

    The samples run on [ascii_runtime]: all their text is ASCII, on which
    every runtime agrees. *)

Section samples.
#[local] Existing Instance ascii_runtime.

(** A process in [/app] where every directory can be created and every
    file opened, before any logger exists; a path exists under the
    spelling it was created with only. *)
Definition sample_os : OS :=
  {| cwd := "/app"; existing := {[ "/app" ]};
     mkdir_error := fun _ => None; open_answer := fun _ _ _ _ => None;
     also_created := fun _ => ∅ |}.

Definition sample_world : World :=
  {| w_os := sample_os; stdout := []; heap := []; loggers := ∅ |}.

(** The state a computation leaves, and its result when it returned. *)
Definition state_after {S A} (r : Result A * S) : S := snd r.

Definition returned {S A} (r : Result A * S) : option A :=
  match fst r with
  | Ok a => Some a
  | Raise _ => None
  end.

(** [Logger("T")] in the sample process, and the instance it returns. *)
Definition first_T : Result Logger.t * World :=
  Logger.__init__ "T" None (Some "DEBUG") sample_world.

Definition sample_logger : Logger.t :=
  Logger.mk "T" "/app/logs" "DEBUG" logging.DEBUG (Some "T")
    {[ "default_formatter" := Logger.DEFAULT_FORMATTER ]}
    [("rich_console_handler", 0%nat); ("file_handler", 1%nat)].

(** A second [Logger("T")] in the same process (the test suite builds its
    ["TESTER"] instance once per test class in the same way). *)
Definition second_T : Result Logger.t * World :=
  Logger.__init__ "T" None (Some "DEBUG") (state_after first_T).

Definition sample_logger_T2 : Logger.t :=
  Logger.mk "T" "/app/logs" "DEBUG" logging.DEBUG (Some "T")
    {[ "default_formatter" := Logger.DEFAULT_FORMATTER ]}
    [("rich_console_handler", 2%nat); ("file_handler", 3%nat)].

(** [Logger("U")] after [Logger("T")], and the instance it returns. *)
Definition second_U : Result Logger.t * World :=
  Logger.__init__ "U" None (Some "DEBUG") (state_after first_T).

Definition sample_logger_U : Logger.t :=
  Logger.mk "U" "/app/logs" "DEBUG" logging.DEBUG (Some "U")
    {[ "default_formatter" := Logger.DEFAULT_FORMATTER ]}
    [("rich_console_handler", 2%nat); ("file_handler", 3%nat)].

(** The operations that work on the live logger; the others work on the
    registries or only read. *)
Definition touches_loggers (op : Op) : bool :=
  match op with
  | OpResetHandlersLogger | OpRemoveHandlerLogger _ | OpAddHandlerLogger _
  | OpSetupLogger _ _ => true
  | _ => false
  end.

(** A process in [/app] where no directory can be created and no file
    opened, and an instance as it is before its first [setup_logger]: no
    live logger, one handler registered under a key of the caller. *)
Definition readonly_world : World :=
  {| w_os := {| cwd := "/app"; existing := {[ "/app" ]};
                mkdir_error := fun _ => Some "Permission denied";
                open_answer :=
                  fun _ _ _ _ => Some (OSError "Permission denied");
                also_created := fun _ => ∅ |};
     stdout := []; heap := []; loggers := ∅ |}.

Definition unbound_logger : Logger.t :=
  Logger.mk "T" "/app/logs" "DEBUG" logging.DEBUG None
    {[ "default_formatter" := Logger.DEFAULT_FORMATTER ]}
    [("x", 7%nat)].

(** [Logger("T", None, None)] in the sample process, and the instance it
    returns. *)
Definition first_T_no_level : Result Logger.t * World :=
  Logger.__init__ "T" None None sample_world.

Definition sample_logger_no_level : Logger.t :=
  Logger.mk "T" "/app/logs" "NONE" logging.DEBUG (Some "T")
    {[ "default_formatter" := Logger.DEFAULT_FORMATTER ]}
    [("rich_console_handler", 0%nat); ("file_handler", 1%nat)].

(** Two operations on the sample instance: [reset_handlers_list()] after
    its construction, and [setup_logger(None, "ERROR")]. *)
Definition sample_reset : Result unit * Logger.State :=
  run_op OpResetHandlersList (sample_logger, state_after first_T).

Definition sample_setup_error : Result unit * Logger.State :=
  run_op (OpSetupLogger None (Some "ERROR")) (sample_logger, sample_world).

End samples.

(** * Proofs *)

(** Unfolding the monad and the small methods in a run. *)
Ltac run_method :=
  repeat first
    [ progress (unfold bind, ret, raise, modify, Logger.self, Logger.liftW,
        Logger.live_logger, dict_getitem, gmap_getitem, print,
        logging.Logger_addHandler, logging.Logger_removeHandler in *)
    | progress (simpl in *)
    | progress simplify_eq
    | case_match ];
  try done.

Section general_runs.
Context `{RT : PyRuntime}.

(** * The logger table *)

Lemma logger_obj_update l f w l' :
  logging.logger_obj (logging.update_logger l f w) l' =
  if decide (l = l') then f (logging.logger_obj w l) else logging.logger_obj w l'.
Proof.
  unfold logging.logger_obj, logging.update_logger. simpl.
  rewrite lookup_insert. by destruct (decide (l = l')).
Qed.

Lemma logger_obj_update_eq l f w :
  logging.logger_obj (logging.update_logger l f w) l = f (logging.logger_obj w l).
Proof. rewrite logger_obj_update. by rewrite decide_True. Qed.

Lemma logger_obj_update_ne l f w l' :
  l <> l' ->
  logging.logger_obj (logging.update_logger l f w) l' = logging.logger_obj w l'.
Proof. intros. rewrite logger_obj_update. by rewrite decide_False. Qed.

Lemma same_outside_trans w1 w2 w3 :
  same_outside_loggers w1 w2 -> same_outside_loggers w2 w3 ->
  same_outside_loggers w1 w3.
Proof. unfold same_outside_loggers. intros (?&?&?) (?&?&?). split_and!; congruence. Qed.

Lemma same_outside_update l f w :
  same_outside_loggers w (logging.update_logger l f w).
Proof. done. Qed.

Lemma getLogger_run name w :
  exists w', logging.getLogger name w = (Ok (logging.logger_key name), w')
    /\ same_outside_loggers w w'
    /\ forall l, logging.logger_obj w' l = logging.logger_obj w l.
Proof.
  unfold logging.getLogger. simpl.
  destruct (loggers w !! logging.logger_key name) as [o|] eqn:E.
  - by eexists.
  - eexists. split; [done|]. split; [done|].
    intros l. unfold logging.logger_obj. simpl. rewrite lookup_insert.
    destruct (decide (logging.logger_key name = l)) as [<-|]; [|done].
    by rewrite E.
Qed.

(** * Detaching and attaching in a loop *)

Lemma remove_loop_run l (hs : list nat) this w :
  exists w',
    for_each hs (fun h => Logger.liftW (logging.Logger_removeHandler l h)) (this, w)
      = (Ok tt, (this, w'))
    /\ same_outside_loggers w w'
    /\ logging.logger_obj w' l
         = foldl (fun o h => logging.remove_hdlr h o) (logging.logger_obj w l) hs
    /\ forall l', l <> l' -> logging.logger_obj w' l' = logging.logger_obj w l'.
Proof.
  revert w. induction hs as [|h hs IH]; intros w.
  - by exists w.
  - destruct (IH (logging.update_logger l (logging.remove_hdlr h) w))
      as (w' & Hrun & Hout & Hobj & Hother).
    exists w'. split.
    { simpl. unfold bind at 1. simpl. exact Hrun. }
    split; [done|]. split.
    + by rewrite Hobj, logger_obj_update_eq.
    + intros l' Hl'. by rewrite Hother, logger_obj_update_ne.
Qed.

Lemma list_remove_first_perm x (l : list nat) :
  x ∈ l -> l ≡ₚ x :: list_remove_first x l.
Proof.
  induction l as [|y l IH]; intros Hin; [by apply elem_of_nil in Hin|].
  simpl. case_bool_decide as E; [by subst|].
  apply elem_of_cons in Hin as [->|Hin]; [done|].
  rewrite (IH Hin) at 1. apply Permutation_swap.
Qed.

Lemma remove_all_handlers (todo : list nat) (o : PyLogger) :
  lg_handlers o ⊆+ todo ->
  lg_handlers (foldl (fun o h => logging.remove_hdlr h o) o todo) = [].
Proof.
  revert o. induction todo as [|h todo IH]; intros o Hsub; simpl.
  - by apply submseteq_nil_r.
  - apply IH. unfold logging.remove_hdlr. case_bool_decide as Hin; simpl.
    + rewrite (list_remove_first_perm h _ Hin) in Hsub.
      by apply (submseteq_app_inv_l _ _ [h]).
    + apply submseteq_cons_r in Hsub as [Hsub|(k & Hk & _)]; [done|].
      exfalso. apply Hin. rewrite Hk. by left.
Qed.

Lemma remove_hdlr_level h o : lg_level (logging.remove_hdlr h o) = lg_level o.
Proof. unfold logging.remove_hdlr. by case_bool_decide. Qed.

Lemma remove_hdlr_propagate h o :
  lg_propagate (logging.remove_hdlr h o) = lg_propagate o.
Proof. unfold logging.remove_hdlr. by case_bool_decide. Qed.

Lemma add_hdlr_level h o : lg_level (logging.add_hdlr h o) = lg_level o.
Proof. unfold logging.add_hdlr. by case_bool_decide. Qed.

Lemma add_hdlr_propagate h o :
  lg_propagate (logging.add_hdlr h o) = lg_propagate o.
Proof. unfold logging.add_hdlr. by case_bool_decide. Qed.

Lemma foldl_remove_level hs o :
  lg_level (foldl (fun o h => logging.remove_hdlr h o) o hs) = lg_level o.
Proof.
  revert o. induction hs as [|h hs IH]; intros o; simpl; [done|].
  by rewrite IH, remove_hdlr_level.
Qed.

Lemma foldl_remove_propagate hs o :
  lg_propagate (foldl (fun o h => logging.remove_hdlr h o) o hs) = lg_propagate o.
Proof.
  revert o. induction hs as [|h hs IH]; intros o; simpl; [done|].
  by rewrite IH, remove_hdlr_propagate.
Qed.

Lemma foldl_add_level hs o :
  lg_level (foldl (fun o h => logging.add_hdlr h o) o hs) = lg_level o.
Proof.
  revert o. induction hs as [|h hs IH]; intros o; simpl; [done|].
  by rewrite IH, add_hdlr_level.
Qed.

Lemma foldl_add_propagate hs o :
  lg_propagate (foldl (fun o h => logging.add_hdlr h o) o hs) = lg_propagate o.
Proof.
  revert o. induction hs as [|h hs IH]; intros o; simpl; [done|].
  by rewrite IH, add_hdlr_propagate.
Qed.

Lemma elem_of_add_hdlr x h o :
  x ∈ lg_handlers (logging.add_hdlr h o) <-> x ∈ lg_handlers o \/ x = h.
Proof.
  unfold logging.add_hdlr. case_bool_decide as Hin; simpl.
  - split; [by left|]. intros [Hx|Hx]; [done|by subst].
  - rewrite elem_of_app, list_elem_of_singleton. naive_solver.
Qed.

Lemma elem_of_foldl_add x hs o :
  x ∈ lg_handlers (foldl (fun o h => logging.add_hdlr h o) o hs)
  <-> x ∈ lg_handlers o \/ x ∈ hs.
Proof.
  revert o. induction hs as [|h hs IH]; intros o; simpl.
  - rewrite elem_of_nil. naive_solver.
  - rewrite IH, elem_of_add_hdlr, elem_of_cons. naive_solver.
Qed.

(** * The registry *)

(** The values of a dictionary in the order of its keys. *)
Lemma dict_get_keys {V} (d : dict V) k :
  k ∈ dict_keys d <-> is_Some (dict_get d k).
Proof.
  induction d as [|[k' v] d IH]; simpl.
  - rewrite elem_of_nil. split; [done|]. by intros [? ?].
  - rewrite elem_of_cons. case_bool_decide as E.
    + subst. split; [by eexists|by left].
    + rewrite <- IH. naive_solver.
Qed.

Lemma dict_get_set {V} (d : dict V) k v k' :
  dict_get (dict_set d k v) k' =
  if decide (k = k') then Some v else dict_get d k'.
Proof.
  induction d as [|[k0 v0] d IH]; simpl.
  - case_bool_decide; by case_decide.
  - case_bool_decide as E0; simpl.
    + subst k0. case_bool_decide; by case_decide.
    + rewrite IH. case_bool_decide as E1; [|done].
      subst k0. by rewrite decide_False.
Qed.

Lemma elem_of_registry_values this h :
  h ∈ registry_values this <-> in_registry this h.
Proof.
  unfold registry_values, in_registry. rewrite list_elem_of_omap. split.
  - intros (k & _ & Hk). by exists k.
  - intros (k & Hk). exists k. split; [|done].
    apply dict_get_keys. by eexists.
Qed.

Lemma PyLogger_eq (a b : PyLogger) :
  lg_level a = lg_level b -> lg_propagate a = lg_propagate b ->
  lg_handlers a = lg_handlers b -> a = b.
Proof. destruct a, b; simpl; congruence. Qed.

Lemma add_loop_run lg (keys : list string) this w :
  (forall k, k ∈ keys -> is_Some (dict_get (Logger.handlers this) k)) ->
  exists w',
    for_each keys (fun key =>
        let! this := Logger.self in
        let! h := dict_getitem (Logger.handlers this) key in
        Logger.liftW (logging.Logger_addHandler lg h)) (this, w)
      = (Ok tt, (this, w'))
    /\ same_outside_loggers w w'
    /\ logging.logger_obj w' lg
         = foldl (fun o h => logging.add_hdlr h o) (logging.logger_obj w lg)
             (omap (dict_get (Logger.handlers this)) keys)
    /\ forall l', lg <> l' -> logging.logger_obj w' l' = logging.logger_obj w l'.
Proof.
  revert w. induction keys as [|k keys IH]; intros w Hkeys.
  - by exists w.
  - destruct (Hkeys k) as [h Hh]; [by left|].
    destruct (IH (logging.update_logger lg (logging.add_hdlr h) w))
      as (w' & Hrun & Hout & Hobj & Hother).
    { intros k' Hk'. apply Hkeys. by right. }
    exists w'. split.
    { simpl. unfold bind at 1. unfold bind at 1. simpl.
      unfold dict_getitem. rewrite Hh. unfold bind at 1. simpl. exact Hrun. }
    split; [done|]. split.
    + simpl. rewrite Hh. simpl. by rewrite Hobj, logger_obj_update_eq.
    + intros l' Hl'. by rewrite Hother, logger_obj_update_ne.
Qed.

Lemma reset_handlers_logger_run this w :
  exists w',
    Logger.reset_handlers_logger (this, w)
      = (Ok (bool_decide (is_Some (Logger.logger this))), (this, w'))
    /\ same_outside_loggers w w'
    /\ forall l, logging.logger_obj w' l =
         if decide (Logger.logger this = Some l)
         then logging.set_lg_handlers [] (logging.logger_obj w l)
         else logging.logger_obj w l.
Proof.
  unfold Logger.reset_handlers_logger, bind at 1, Logger.self.
  cbn [fst snd].
  destruct (Logger.logger this) as [l0|] eqn:El.
  - unfold bind at 1, Logger.liftW at 1, logging.Logger_handlers. cbn [fst snd].
    destruct (lg_handlers (logging.logger_obj w l0)) as [|h hs] eqn:Eh.
    + exists w. split; [done|]. split; [done|]. intros l.
      case_decide as E; [|done]. injection E as ->.
      apply PyLogger_eq; by rewrite ?Eh.
    + destruct (remove_loop_run l0 (h :: hs) this w)
        as (w' & Hrun & Hout & Hobj & Hother).
      exists w'. split.
      { unfold bind at 1. rewrite Hrun. done. }
      split; [done|]. intros l. case_decide as E.
      * injection E as ->. rewrite Hobj. apply PyLogger_eq.
        -- by rewrite foldl_remove_level.
        -- by rewrite foldl_remove_propagate.
        -- rewrite <- Eh. by rewrite remove_all_handlers.
      * apply Hother. congruence.
  - exists w. split; [done|]. split; [done|]. intros l. by rewrite decide_False.
Qed.

Lemma liftW_run {A} (m : M World A) this w r w' :
  m w = (r, w') -> Logger.liftW m (this, w) = (r, (this, w')).
Proof. unfold Logger.liftW. simpl. by intros ->. Qed.

Lemma bind_run {S A B} (m : M S A) (k : A -> M S B) s a s' :
  m s = (Ok a, s') -> bind m k s = k a s'.
Proof. unfold bind. by intros ->. Qed.

Lemma bind_raise {S A B} (m : M S A) (k : A -> M S B) s e s' :
  m s = (Raise e, s') -> bind m k s = (Raise e, s').
Proof. unfold bind. by intros ->. Qed.

Lemma std_log_level_cases lvl :
  _std_log_level lvl ∈ [logging.DEBUG; logging.INFO; logging.WARNING;
                         logging.ERROR; logging.CRITICAL].
Proof.
  unfold _std_log_level. repeat case_bool_decide; set_solver.
Qed.

Lemma std_log_level_nonzero lvl : _std_log_level lvl <> 0.
Proof.
  pose proof (std_log_level_cases lvl) as H.
  repeat (apply elem_of_cons in H as [->|H]; [done|]).
  by apply elem_of_nil in H.
Qed.

Lemma py_or_level_std lvl stored :
  py_or_level (_std_log_level lvl) stored = inl (_std_log_level lvl).
Proof.
  unfold py_or_level. rewrite bool_decide_eq_false_2; [done|].
  apply std_log_level_nonzero.
Qed.

Lemma setup_logger_run name lvl this w :
  let lg := logging.logger_key (py_or_str name (Logger.module_name this)) in
  exists w',
    Logger.setup_logger name lvl (this, w)
      = (Ok tt, (Logger.with_logger (Some lg) this, w'))
    /\ same_outside_loggers w w'
    /\ logging.logger_obj w' lg =
         foldl (fun o h => logging.add_hdlr h o)
           (logging.set_lg_propagate false
              ((if decide (Logger.logger this = Some lg)
                then logging.set_lg_handlers [] else id)
                 (logging.set_lg_level (_std_log_level lvl)
                    (logging.logger_obj w lg))))
           (registry_values this)
    /\ forall l, lg <> l ->
         logging.logger_obj w' l =
         if decide (Logger.logger this = Some l)
         then logging.set_lg_handlers [] (logging.logger_obj w l)
         else logging.logger_obj w l.
Proof.
  intros lg. unfold Logger.setup_logger.
  destruct (getLogger_run (py_or_str name (Logger.module_name this)) w)
    as (w1 & Hget & Hout1 & Hobj1). fold lg in Hget.
  set (w2 := logging.update_logger lg
               (logging.set_lg_level (_std_log_level lvl)) w1).
  destruct (reset_handlers_logger_run this w2) as (w3 & Hreset & Hout3 & Hobj3).
  set (w4 := logging.update_logger lg (logging.set_lg_propagate false) w3).
  destruct (add_loop_run lg (dict_keys (Logger.handlers this)) this w4)
    as (w5 & Hadd & Hout5 & Hobj5 & Hother5).
  { intros k. by rewrite dict_get_keys. }
  exists w5. split.
  { unfold bind at 1, Logger.self at 1. cbn [fst snd].
    rewrite (bind_run _ _ _ _ _ (liftW_run _ this _ _ _ Hget)).
    rewrite py_or_level_std.
    unfold bind at 1, Logger.liftW at 1, logging.Logger_setLevel. cbn [fst snd].
    unfold bind at 1, logging._checkLevel, ret at 1, modify at 1.
    fold w2. rewrite (bind_run _ _ _ _ _ Hreset).
    unfold bind at 1, Logger.liftW at 1, logging.Logger_set_propagate,
      modify at 1. cbn [fst snd]. fold w4.
    unfold bind at 1, Logger.self at 1. cbn [fst snd].
    rewrite (bind_run _ _ _ _ _ Hadd). done. }
  split.
  { eapply same_outside_trans; [exact Hout1|].
    eapply same_outside_trans; [apply (same_outside_update lg)|].
    eapply same_outside_trans; [exact Hout3|].
    eapply same_outside_trans; [apply (same_outside_update lg)|].
    exact Hout5. }
  split.
  - rewrite Hobj5. unfold w4. rewrite logger_obj_update_eq, Hobj3.
    unfold w2. rewrite logger_obj_update_eq, Hobj1.
    by destruct (decide (Logger.logger this = Some lg)).
  - intros l Hl. rewrite (Hother5 l Hl). unfold w4.
    rewrite logger_obj_update_ne by done. rewrite Hobj3. unfold w2.
    rewrite logger_obj_update_ne by done. by rewrite Hobj1.
Qed.

(** * Handler construction *)

Lemma heap_lookup_last (hp : list Handler) h :
  (hp ++ [h]) !! List.length hp = Some h.
Proof. by rewrite lookup_app_r, Nat.sub_diag. Qed.

Lemma heap_insert_last (hp : list Handler) h h' :
  <[List.length hp := h']> (hp ++ [h]) = hp ++ [h'].
Proof. by rewrite insert_app_r_alt, Nat.sub_diag. Qed.

Lemma configure_new_handler k lvl0 f n w :
  (logging.Handler_setFormatter (List.length (heap w)) f ;;;
   logging.Handler_setLevel (List.length (heap w)) n ;;;
   ret (List.length (heap w)))
    (with_heap (fun hp => hp ++
       [{| h_kind := k; h_formatter := None; h_level := lvl0 |}]) w)
  = (Ok (List.length (heap w)),
     with_heap (fun hp => hp ++
       [{| h_kind := k; h_formatter := Some f; h_level := n |}]) w).
Proof.
  unfold bind, logging.Handler_setFormatter, logging.Handler_setLevel,
    modify, ret, with_heap. simpl.
  rewrite heap_lookup_last. simpl. rewrite heap_insert_last.
  rewrite heap_lookup_last. simpl. rewrite heap_insert_last. done.
Qed.

Lemma create_rich_console_handler_run n f markup tb w :
  create_rich_console_handler n f markup tb w
  = (Ok (List.length (heap w)),
     with_heap (fun hp => hp ++
       [{| h_kind := RichHandler markup tb; h_formatter := Some f;
           h_level := n |}]) w).
Proof.
  unfold create_rich_console_handler, new_RichHandler, logging.new_handler.
  unfold bind at 1. apply configure_new_handler.
Qed.

Lemma create_console_handler_run n f stream w :
  create_console_handler n f stream w
  = (Ok (List.length (heap w)),
     with_heap (fun hp => hp ++
       [{| h_kind := StreamHandler stream; h_formatter := Some f;
           h_level := n |}]) w).
Proof.
  unfold create_console_handler, logging.new_StreamHandler, logging.new_handler.
  unfold bind at 1. apply configure_new_handler.
Qed.

Lemma create_file_handler_run n f path mode enc errs w :
  create_file_handler n f path mode enc false errs w
  = match open_answer (w_os w) path mode enc errs with
    | Some e => (Raise e, w)
    | None =>
        (Ok (List.length (heap w)),
         with_heap (fun hp => hp ++
           [{| h_kind := FileHandler path mode enc false errs;
               h_formatter := Some f; h_level := n |}])
           (with_os (os_add_path path) w))
    end.
Proof.
  unfold create_file_handler, logging.new_FileHandler, py_open.
  unfold bind at 1. unfold bind at 1.
  destruct (open_answer (w_os w) path mode enc errs) as [e|]; [done|].
  unfold logging.new_handler.
  apply (configure_new_handler _ _ f n (with_os (os_add_path path) w)).
Qed.

(** * Construction *)

Lemma py_or_str_self n : py_or_str (Some n) n = n.
Proof. unfold py_or_str. by case_bool_decide. Qed.

Lemma gmap_getitem_run {S V} (d : gmap string V) k v (s : S) :
  d !! k = Some v -> gmap_getitem d k s = (Ok v, s).
Proof. unfold gmap_getitem. by intros ->. Qed.

Lemma init_handlers_run this0 w1 f :
  Logger.formatters this0 !! "default_formatter" = Some f ->
  Logger.handlers this0 = [] ->
  Logger.logger this0 = None ->
  let path := ((Logger.log_path this0 +:+ "/") +:+ Logger.module_name this0)
                +:+ ".log" in
  let n := List.length (heap w1) in
  let lg := logging.logger_key (Logger.module_name this0) in
  match open_error (w_os w1) path with
  | Some e =>
      exists st', Logger.init_handlers (this0, w1) = (Raise e, st')
  | None =>
      exists w',
        Logger.init_handlers (this0, w1)
          = (Ok tt,
             (Logger.with_logger (Some lg)
                (Logger.with_handlers
                   [("rich_console_handler", n); ("file_handler", S n)] this0),
              w'))
        /\ w_os w' = os_add_path path (w_os w1)
        /\ stdout w' = stdout w1
        /\ heap w' = heap w1 ++
             [rich_default (Logger.log_level_int this0) f;
              file_default (Logger.log_level_int this0) f path]
        /\ logging.logger_obj w' lg =
             foldl (fun o h => logging.add_hdlr h o)
               (logging.set_lg_propagate false
                  (logging.set_lg_level
                     (_std_log_level (Some (Logger.log_level this0)))
                     (logging.logger_obj w1 lg)))
               [n; S n]
        /\ forall l, lg <> l -> logging.logger_obj w' l = logging.logger_obj w1 l
  end.
Proof.
  intros Hf Hh Hl path n lg.
  set (w2 := with_heap (fun hp => hp ++
                [rich_default (Logger.log_level_int this0) f]) w1).
  pose proof (create_file_handler_run (Logger.log_level_int this0) f path
                "a" None None w2) as Hfile.
  change (open_answer (w_os w2) path "a" None None)
    with (open_error (w_os w1) path) in Hfile.
  assert (Hprefix : forall k : Logger.State -> Result unit * Logger.State,
    (let! this := Logger.self in
     let! formatter :=
       gmap_getitem (Logger.formatters this) "default_formatter" in
     let! rich_h :=
       Logger.liftW (create_rich_console_handler (Logger.log_level_int this)
                       formatter true true) in
     Logger.handlers_setitem "rich_console_handler" rich_h ;;; k) (this0, w1)
    = k (Logger.with_handlers [("rich_console_handler", n)] this0, w2)).
  { intros k. unfold bind at 1, Logger.self at 1. cbn [fst snd].
    rewrite (bind_run _ _ _ _ _ (gmap_getitem_run _ _ _ _ Hf)).
    rewrite (bind_run _ _ _ _ _
               (liftW_run _ _ _ _ _ (create_rich_console_handler_run _ _ _ _ _))).
    unfold bind at 1, Logger.handlers_setitem at 1, bind at 1, Logger.self at 1,
      Logger.set_handlers, modify. cbn [fst snd]. by rewrite Hh. }
  assert (Hnext : forall k : nat -> M Logger.State unit,
    (let! this := Logger.self in
     let! formatter :=
       gmap_getitem (Logger.formatters this) "default_formatter" in
     let! file_h :=
       Logger.liftW (create_file_handler (Logger.log_level_int this) formatter
         (((Logger.log_path this +:+ "/") +:+ Logger.module_name this)
            +:+ ".log") "a" None false None) in
     k file_h)
      (Logger.with_handlers [("rich_console_handler", n)] this0, w2)
    = (let! file_h :=
         Logger.liftW (create_file_handler (Logger.log_level_int this0) f path
                         "a" None false None) in
       k file_h)
        (Logger.with_handlers [("rich_console_handler", n)] this0, w2)).
  { intros k. unfold bind at 1, Logger.self at 1. cbn [fst snd].
    by rewrite (bind_run _ _ _ _ _ (gmap_getitem_run _ _ _ _ Hf)). }
  unfold Logger.init_handlers.
  destruct (open_error (w_os w1) path) as [e|] eqn:Hopen.
  - eexists. rewrite Hprefix, Hnext.
    by rewrite (bind_raise _ _ _ _ _ (liftW_run _ _ _ _ _ Hfile)).
  - rewrite Hprefix, Hnext.
    rewrite (bind_run _ _ _ _ _ (liftW_run _ _ _ _ _ Hfile)).
    unfold bind at 1, Logger.handlers_setitem at 1, bind at 1, Logger.self at 1,
      Logger.set_handlers, modify. cbn [fst snd].
    unfold bind at 1, Logger.self at 1. cbn [fst snd].
    cbn [Logger.with_handlers Logger.log_level Logger.module_name
         Logger.handlers dict_set].
    rewrite bool_decide_eq_false_2 by done.
    cbn [dict_set].
    assert (Hlen : List.length (heap w2) = S n).
    { unfold w2. simpl. rewrite length_app. simpl. unfold n. lia. }
    rewrite Hlen.
    set (this1 := Logger.with_handlers _ (Logger.with_handlers _ this0)).
    set (w3 := with_heap _ (with_os _ w2)).
    destruct (setup_logger_run (Some (Logger.module_name this0))
                (Some (Logger.log_level this0)) this1 w3)
      as (w' & Hrun & (Hos & Hout & Hheap) & Hobj & Hother).
    change (Logger.module_name this1) with (Logger.module_name this0) in *.
    rewrite py_or_str_self in *. fold lg in Hrun, Hobj, Hother.
    change (Logger.logger this1) with (Logger.logger this0) in *.
    rewrite Hl in *.
    exists w'. split; [by rewrite Hrun|].
    split; [by rewrite Hos|]. split; [by rewrite Hout|].
    split; [rewrite Hheap; unfold w3, w2; simpl; by rewrite <- app_assoc|].
    split.
    + rewrite Hobj. rewrite decide_False by done.
      assert (registry_values this1 = [n; S n]) as ->.
      { unfold registry_values, this1. by simpl. }
      done.
    + intros l Hne. rewrite (Hother l Hne). by rewrite decide_False.
Qed.

Lemma init_run name dir lvl w :
  match _derive_log_path dir w with
  | (Raise e, w1) => Logger.__init__ name dir lvl w = (Raise e, w1)
  | (Ok lp, w1) =>
      let path := ((lp +:+ "/") +:+ name) +:+ ".log" in
      let n := List.length (heap w1) in
      let lg := logging.logger_key name in
      let level := _std_log_level lvl in
      match open_error (w_os w1) path with
      | Some e => exists w', Logger.__init__ name dir lvl w = (Raise e, w')
      | None =>
          exists w',
            Logger.__init__ name dir lvl w
              = (Ok (Logger.mk name lp (py_upper (py_str lvl)) level (Some lg)
                       {[ "default_formatter" := Logger.DEFAULT_FORMATTER ]}
                       [("rich_console_handler", n); ("file_handler", S n)]),
                 w')
            /\ w_os w' = os_add_path path (w_os w1)
            /\ stdout w' = stdout w1
            /\ heap w' = heap w1 ++
                 [rich_default level Logger.DEFAULT_FORMATTER;
                  file_default level Logger.DEFAULT_FORMATTER path]
            /\ logging.logger_obj w' lg =
                 foldl (fun o h => logging.add_hdlr h o)
                   (logging.set_lg_propagate false
                      (logging.set_lg_level
                         (_std_log_level (Some (py_upper (py_str lvl))))
                         (logging.logger_obj w1 lg)))
                   [n; S n]
            /\ forall l, lg <> l ->
                 logging.logger_obj w' l = logging.logger_obj w1 l
      end
  end.
Proof.
  unfold Logger.__init__.
  destruct (_derive_log_path dir w) as [[lp|e] w1] eqn:Hd.
  - rewrite (bind_run _ _ _ _ _ Hd).
    set (fresh := Logger.mk _ _ _ _ _ _ _).
    pose proof (init_handlers_run fresh w1 Logger.DEFAULT_FORMATTER) as Hrun.
    cbn zeta in Hrun.
    specialize (Hrun (lookup_singleton_eq _ _) eq_refl eq_refl).
    cbn [Logger.log_path Logger.module_name Logger.log_level_int
         Logger.log_level fresh] in Hrun.
    cbn zeta.
    destruct (open_error (w_os w1) _) as [e|].
    + destruct Hrun as ([this' w'] & Hrun). exists w'. by rewrite Hrun.
    + destruct Hrun as (w' & Hrun & Hrest). exists w'. split; [|exact Hrest].
      by rewrite Hrun.
  - by rewrite (bind_raise _ _ _ _ _ Hd).
Qed.

Lemma init_inv name dir lvl w this w' :
  Logger.__init__ name dir lvl w = (Ok this, w') ->
  exists lp w1,
    _derive_log_path dir w = (Ok lp, w1)
    /\ open_error (w_os w1) (((lp +:+ "/") +:+ name) +:+ ".log") = None
    /\ this = Logger.mk name lp (py_upper (py_str lvl)) (_std_log_level lvl)
                (Some (logging.logger_key name))
                {[ "default_formatter" := Logger.DEFAULT_FORMATTER ]}
                [("rich_console_handler", List.length (heap w1));
                 ("file_handler", S (List.length (heap w1)))]
    /\ heap w' = heap w1 ++
         [rich_default (_std_log_level lvl) Logger.DEFAULT_FORMATTER;
          file_default (_std_log_level lvl) Logger.DEFAULT_FORMATTER
            (((lp +:+ "/") +:+ name) +:+ ".log")].
Proof.
  intros Hinit. pose proof (init_run name dir lvl w) as Hrun.
  destruct (_derive_log_path dir w) as [[lp|e] w1]; [|congruence].
  cbn zeta in Hrun. exists lp, w1. split; [done|].
  destruct (open_error (w_os w1) _) as [e|].
  - destruct Hrun as (? & Hrun). congruence.
  - destruct Hrun as (w'' & Hrun & _ & _ & Hheap & _).
    rewrite Hrun in Hinit. injection Hinit as <- <-. done.
Qed.

(** * What one operation does to the attributes *)

Lemma reset_handlers_list_run this w :
  match Logger.formatters this !! "default_formatter" with
  | None =>
      Logger.reset_handlers_list (this, w)
        = (Raise (KeyError "default_formatter"),
           (Logger.with_handlers [] this, w))
  | Some f =>
      let n := List.length (heap w) in
      let path := (Logger.log_path this +:+ "/") +:+ Logger.module_name this in
      let console :=
        {| h_kind := StreamHandler sys_stdout; h_formatter := Some f;
           h_level := Logger.log_level_int this |} in
      let w1 := with_heap (fun hp => hp ++ [console]) w in
      match open_error (w_os w) path with
      | Some e =>
          Logger.reset_handlers_list (this, w)
            = (Raise e,
               (Logger.with_handlers [("console_handler", n)] this, w1))
      | None =>
          Logger.reset_handlers_list (this, w)
            = (Ok tt,
               (Logger.with_handlers
                  [("console_handler", n); ("file_handler", S n)] this,
                with_heap (fun hp => hp ++
                    [{| h_kind := FileHandler path "a" None false None;
                        h_formatter := Some f;
                        h_level := Logger.log_level_int this |}])
                  (with_os (os_add_path path) w1)))
      end
  end.
Proof.
  destruct (Logger.formatters this !! "default_formatter") as [f|] eqn:Hf.
  - cbn zeta.
    set (path := (Logger.log_path this +:+ "/") +:+ Logger.module_name this).
    set (w1 := with_heap _ w).
    assert (Hstep : Logger.reset_handlers_list (this, w) =
      (let! file_h :=
         Logger.liftW (create_file_handler (Logger.log_level_int this) f path
                         "a" None false None) in
       Logger.handlers_setitem "file_handler" file_h)
        (Logger.with_handlers [("console_handler", List.length (heap w))] this,
         w1)).
    { unfold Logger.reset_handlers_list.
      unfold bind at 1, Logger.set_handlers at 1, modify at 1. cbn [fst snd].
      unfold bind at 1, Logger.self at 1. cbn [fst snd].
      cbn [Logger.with_handlers Logger.formatters Logger.log_level_int].
      rewrite (bind_run _ _ _ _ _ (gmap_getitem_run _ _ _ _ Hf)).
      rewrite (bind_run _ _ _ _ _
                 (liftW_run _ _ _ _ _ (create_console_handler_run _ _ _ _))).
      unfold bind at 1, Logger.handlers_setitem at 1, bind at 1,
        Logger.self at 1, Logger.set_handlers at 1, modify at 1. cbn [fst snd].
      unfold bind at 1, Logger.self at 1. cbn [fst snd].
      cbn [Logger.with_handlers Logger.formatters Logger.log_level_int
           Logger.log_path Logger.module_name Logger.handlers dict_set].
      by rewrite (bind_run _ _ _ _ _ (gmap_getitem_run _ _ _ _ Hf)). }
    rewrite Hstep.
    pose proof (create_file_handler_run (Logger.log_level_int this) f path
                  "a" None None w1) as Hfile.
    change (open_answer (w_os w1) path "a" None None)
      with (open_error (w_os w) path) in Hfile.
    destruct (open_error (w_os w) path) as [e|].
    + by rewrite (bind_raise _ _ _ _ _ (liftW_run _ _ _ _ _ Hfile)).
    + rewrite (bind_run _ _ _ _ _ (liftW_run _ _ _ _ _ Hfile)).
      unfold Logger.handlers_setitem, bind, Logger.self, Logger.set_handlers,
        modify. cbn [fst snd Logger.with_handlers Logger.handlers dict_set].
      rewrite bool_decide_eq_false_2 by done.
      assert (List.length (heap w1) = S (List.length (heap w))) as ->; [|done].
      unfold w1. simpl. rewrite length_app. simpl. lia.
  - unfold Logger.reset_handlers_list, bind, gmap_getitem, Logger.set_handlers,
      modify, Logger.self. simpl. by rewrite Hf.
Qed.

Lemma run_op_self op this w r this' w' :
  run_op op (this, w) = (r, (this', w')) -> self_step this this'.
Proof.
  destruct op; unfold run_op; intros Hrun.
  - destruct (reset_handlers_logger_run this w) as (w1 & Hr & _).
    rewrite (bind_run _ _ _ _ _ Hr) in Hrun. injection Hrun as _ <- _.
    constructor.
  - unfold Logger.remove_handler_logger in Hrun. run_method; constructor.
  - unfold Logger.add_handler_logger in Hrun. run_method; constructor.
  - unfold Logger.get_all_handlers in Hrun. run_method; constructor.
  - unfold Logger.get_handler in Hrun. run_method; constructor.
  - unfold Logger.update_handlers_list, Logger.handlers_setitem,
      Logger.set_handlers in Hrun. run_method. constructor.
  - pose proof (reset_handlers_list_run this w) as Hr.
    destruct (Logger.formatters this !! "default_formatter") eqn:Hf.
    + cbn zeta in Hr. destruct (open_error (w_os w) _);
        rewrite Hr in Hrun; injection Hrun as _ <- _; constructor.
    + rewrite Hr in Hrun. injection Hrun as _ <- _. by constructor.
  - unfold Logger.get_all_formatters in Hrun. run_method; constructor.
  - unfold Logger.get_formatter in Hrun. run_method; constructor.
  - unfold Logger.update_formatters_list, Logger.formatters_setitem,
      Logger.set_formatters in Hrun. run_method. constructor.
  - unfold Logger.reset_formatters_list, Logger.formatters_setitem,
      Logger.set_formatters in Hrun. run_method.
    unfold Logger.with_formatters. simpl.
    rewrite insert_empty.
    apply (self_reset_formatters this).
  - unfold Logger.get_current_logger in Hrun. run_method; constructor.
  - destruct (setup_logger_run module_name log_level this w)
      as (w1 & Hr & _).
    rewrite Hr in Hrun. injection Hrun as _ <- _. constructor.
Qed.

(** * Invariants of an instance *)

Lemma self_step_ok this this' :
  instance_ok this -> self_step this this' -> instance_ok this'.
Proof.
  intros (Hf & Hl & Hh) Hstep. unfold instance_ok.
  destruct Hstep; simpl; try done.
  - split; [done|]. split; [done|].
    unfold fallback_choice in *. rewrite !dict_get_set.
    repeat case_decide; subst; try done;
      repeat (case_match; simplify_eq; try done).
  - rewrite H in Hf. by destruct Hf.
  - split; [|done]. rewrite lookup_insert. by case_decide.
Qed.

Lemma self_step_names this this' :
  self_step this this' ->
  Logger.module_name this' = Logger.module_name this
  /\ Logger.log_path this' = Logger.log_path this.
Proof. by destruct 1. Qed.

Lemma constructed_ok this : constructed this -> instance_ok this.
Proof.
  induction 1 as [name dir lvl w this w' Hinit|this op w r this' w' _ IH Hrun].
  - apply init_inv in Hinit as (lp & w1 & _ & _ & -> & _).
    unfold instance_ok. simpl. by rewrite lookup_singleton_eq.
  - eapply self_step_ok; [exact IH|]. eapply run_op_self, Hrun.
Qed.

(** * Level mapper *)

Lemma char_lower_upper (c : ascii) : char_lower (char_upper c) = char_lower c.
Proof. by destruct c as [[] [] [] [] [] [] [] []]. Qed.

Lemma char_upper_lower (c : ascii) : char_upper (char_lower c) = char_upper c.
Proof. by destruct c as [[] [] [] [] [] [] [] []]. Qed.

Lemma char_same_letter (a b : ascii) :
  char_lower a = char_lower b <-> char_upper a = char_upper b.
Proof.
  split; intros E.
  - by rewrite <- (char_upper_lower a), E, char_upper_lower.
  - by rewrite <- (char_lower_upper a), E, char_lower_upper.
Qed.

Lemma str_eq_nocase_upper (s t : string) :
  str_eq_nocase s t = true <-> str_upper s = str_upper t.
Proof.
  revert t. induction s as [|a s IH]; intros [|b t]; simpl; try done.
  rewrite andb_true_iff, bool_decide_eq_true, IH, char_same_letter.
  split; [intros [-> ->]; done | intros [= -> ->]; done].
Qed.

Lemma str_eq_nocase_false_upper (s t : string) :
  str_eq_nocase s t = false <-> str_upper s <> str_upper t.
Proof.
  rewrite <- str_eq_nocase_upper. destruct (str_eq_nocase s t); naive_solver.
Qed.


Lemma is_ascii_char_upper (c : ascii) :
  is_ascii_char (char_upper c) = is_ascii_char c.
Proof. by destruct c as [[] [] [] [] [] [] [] []]. Qed.

Lemma str_upper_ascii (s : string) : is_ascii (str_upper s) = is_ascii s.
Proof.
  induction s as [|c s IH]; simpl; [done|].
  by rewrite is_ascii_char_upper, IH.
Qed.


Lemma char_upper_idem (c : ascii) : char_upper (char_upper c) = char_upper c.
Proof. by destruct c as [[] [] [] [] [] [] [] []]. Qed.

Lemma str_upper_idem (s : string) : str_upper (str_upper s) = str_upper s.
Proof.
  induction s as [|c s IH]; simpl; [done|]. by rewrite char_upper_idem, IH.
Qed.

(** On ASCII text upper-casing twice is upper-casing once. *)
Lemma py_upper_idem_ascii (s : string) :
  is_ascii s = true -> py_upper (py_upper s) = py_upper s.
Proof.
  intros Hs. rewrite (py_upper_ascii s Hs).
  rewrite py_upper_ascii by (by rewrite str_upper_ascii).
  apply str_upper_idem.
Qed.


Lemma std_log_level_None : _std_log_level None = logging.DEBUG.
Proof.
  unfold _std_log_level. by rewrite (py_upper_ascii "DEBUG" eq_refl).
Qed.

Lemma py_upper_DEBUG : py_upper "DEBUG" = "DEBUG".
Proof. apply (py_upper_ascii "DEBUG" eq_refl). Qed.

Lemma std_log_level_DEBUG : _std_log_level (Some "DEBUG") = logging.DEBUG.
Proof. exact std_log_level_None. Qed.




(** * Path resolver *)

Lemma derive_default_dir_run c w :
  let logs := c +:+ "/logs" in
  derive_default_dir c w =
    if bool_decide (logs ∈ existing (w_os w)) then (Ok logs, w)
    else match mkdir_error (w_os w) logs with
         | Some e =>
             (Raise (RuntimeError ("Error resolving log path: " +:+ e)), w)
         | None => (Ok logs, with_os (os_add_path logs) w)
         end.
Proof.
  intros logs. unfold derive_default_dir, bind, try_except, os.path_exists,
    os.makedirs, ret, raise. fold logs. simpl.
  case_bool_decide as Hin; simpl; [done|].
  destruct (mkdir_error (w_os w) logs) as [e|]; simpl; [done|].
  by rewrite bool_decide_eq_false_2.
Qed.

Lemma derive_log_path_run candidate w :
  let c := cwd (w_os w) in
  _derive_log_path candidate w =
    match candidate with
    | None => derive_default_dir c w
    | Some p =>
        if bool_decide (((c +:+ "/") +:+ p) ∈ existing (w_os w))
        then (Ok ((c +:+ "/") +:+ p), w)
        else derive_default_dir c w
    end.
Proof.
  intros c. unfold _derive_log_path, bind at 1, os.getcwd. fold c.
  destruct candidate as [p|]; [|done].
  unfold _check_path. unfold bind, os.path_exists, ret. simpl.
  by case_bool_decide.
Qed.

(** C5.  When the candidate is present and the working directory joined
    with it exists, that path is returned and nothing is created.  When the
    candidate is absent or the joined path does not exist, the result is the
    [logs] directory under the working directory: returned as it is when it
    exists, created first when it is missing (it then exists, with what the
    system creates along with it), and a [RuntimeError] is raised instead
    when the creation fails. *)
Theorem derive_log_path_spec (candidate : option string) (w : World) :
  let c := cwd (w_os w) in
  let logs := c +:+ "/logs" in
  (forall p, candidate = Some p -> ((c +:+ "/") +:+ p) ∈ existing (w_os w) ->
     _derive_log_path candidate w = (Ok ((c +:+ "/") +:+ p), w))
  /\ ((candidate = None \/
       exists p, candidate = Some p /\ ((c +:+ "/") +:+ p) ∉ existing (w_os w)) ->
      (logs ∈ existing (w_os w) ->
         _derive_log_path candidate w = (Ok logs, w))
      /\ (logs ∉ existing (w_os w) -> mkdir_error (w_os w) logs = None ->
            exists w', _derive_log_path candidate w = (Ok logs, w')
              /\ existing (w_os w') =
                   {[ logs ]} ∪ also_created (w_os w) logs ∪ existing (w_os w))
      /\ (logs ∉ existing (w_os w) ->
          forall e, mkdir_error (w_os w) logs = Some e ->
            exists msg,
              _derive_log_path candidate w = (Raise (RuntimeError msg), w))).
Proof.
  intros c logs. rewrite derive_log_path_run. fold c. split.
  - intros p -> Hin. by rewrite bool_decide_eq_true_2.
  - intros Hcond.
    assert (match candidate with
            | Some p =>
                if bool_decide (((c +:+ "/") +:+ p) ∈ existing (w_os w))
                then (Ok ((c +:+ "/") +:+ p), w)
                else derive_default_dir c w
            | None => derive_default_dir c w
            end = derive_default_dir c w) as ->.
    { destruct Hcond as [->|(p & -> & Hp)]; [done|].
      by rewrite bool_decide_eq_false_2. }
    rewrite derive_default_dir_run. fold logs. split; [|split].
    + intros Hin. by rewrite bool_decide_eq_true_2.
    + intros Hnin Hmk. rewrite bool_decide_eq_false_2, Hmk by done.
      by eexists.
    + intros Hnin e Hmk. rewrite bool_decide_eq_false_2, Hmk by done.
      by eexists.
Qed.

End general_runs.

(** * The sample instances *)

Section sample_runs.
#[local] Existing Instance ascii_runtime.

Lemma first_T_run : first_T = (Ok sample_logger, state_after first_T).
Proof. vm_compute. reflexivity. Qed.

Lemma second_T_run : second_T = (Ok sample_logger_T2, state_after second_T).
Proof. vm_compute. reflexivity. Qed.

Lemma second_U_run : second_U = (Ok sample_logger_U, state_after second_U).
Proof. vm_compute. reflexivity. Qed.

End sample_runs.

(** * Setup *)

Section setup.
Context `{RT : PyRuntime}.

Lemma setup_logger_attached name lvl this w :
  let lg := logging.logger_key (py_or_str name (Logger.module_name this)) in
  exists w',
    Logger.setup_logger name lvl (this, w)
      = (Ok tt, (Logger.with_logger (Some lg) this, w'))
    /\ threshold w' lg = _std_log_level lvl
    /\ lg_propagate (logging.logger_obj w' lg) = false
    /\ forall h, h ∈ attached w' lg <->
         (Logger.logger this <> Some lg /\ h ∈ attached w lg)
         \/ in_registry this h.
Proof.
  intros lg.
  destruct (setup_logger_run name lvl this w) as (w' & Hrun & _ & Hobj & _).
  fold lg in Hrun, Hobj. exists w'. split; [done|].
  unfold threshold, attached. rewrite Hobj. split; [|split].
  - rewrite foldl_add_level. simpl. by case_decide.
  - by rewrite foldl_add_propagate.
  - intros h. rewrite elem_of_foldl_add, elem_of_registry_values.
    case_decide as E; simpl.
    + rewrite elem_of_nil. naive_solver.
    + naive_solver.
Qed.

Lemma setup_logger_synced name lvl this w :
  let lg := logging.logger_key (py_or_str name (Logger.module_name this)) in
  Logger.logger this = Some lg \/ attached w lg = [] ->
  synced (state_after (Logger.setup_logger name lvl (this, w))).
Proof.
  intros lg Hclean.
  destruct (setup_logger_attached name lvl this w)
    as (w' & Hrun & _ & _ & Hatt).
  fold lg in Hrun, Hatt. rewrite Hrun. exists lg. split; [done|].
  intros h. simpl. rewrite Hatt.
  change (in_registry (Logger.with_logger (Some lg) this) h)
    with (in_registry this h).
  destruct Hclean as [E|E].
  - naive_solver.
  - rewrite E, elem_of_nil. naive_solver.
Qed.

Lemma not_synced_by_extra this w l h :
  Logger.logger this = Some l ->
  h ∈ attached w l -> h ∉ registry_values this ->
  ~ synced (this, w).
Proof.
  intros Hl Hin Hout (l' & Hl' & Hsync). simpl in Hl', Hsync.
  assert (l' = l) as -> by congruence.
  apply Hout, elem_of_registry_values, Hsync, Hin.
Qed.

End setup.

Section setup_samples.
#[local] Existing Instance ascii_runtime.

(** C1.  The second [Logger("T")] of a process: its call of [setup_logger]
    leaves the handlers of the first instance attached to the live logger,
    beside the two of its own registry. *)
Theorem setup_logger_keeps_foreign_handlers :
  second_T = (Ok sample_logger_T2, state_after second_T)
  /\ Logger.logger sample_logger_T2 = Some "T"
  /\ attached (state_after second_T) "T" = [0; 1; 2; 3]%nat
  /\ registry_values sample_logger_T2 = [2; 3]%nat
  /\ ~ synced (sample_logger_T2, state_after second_T).
Proof.
  assert (Hatt : attached (state_after second_T) "T" = [0; 1; 2; 3]%nat)
    by (vm_compute; reflexivity).
  assert (Hreg : registry_values sample_logger_T2 = [2; 3]%nat)
    by (vm_compute; reflexivity).
  split; [exact second_T_run|]. split; [reflexivity|].
  split; [exact Hatt|]. split; [exact Hreg|].
  apply (not_synced_by_extra _ _ "T" 0%nat); [reflexivity| |].
  - rewrite Hatt. apply list_elem_of_here.
  - rewrite Hreg. intros H0.
    apply elem_of_cons in H0 as [H0|H0]; [discriminate|].
    apply elem_of_cons in H0 as [H0|H0]; [discriminate|].
    by apply elem_of_nil in H0.
Qed.

(** C6.  An instance for ["U"] is set up for ["T"] twice in a row, after
    another instance was built for ["T"]: the first call leaves four
    handlers attached, the second two, with the registry untouched. *)
Theorem setup_logger_twice_differs :
  let st0 := (sample_logger_U, state_after second_U) in
  let r1 := Logger.setup_logger (Some "T") (Some "DEBUG") st0 in
  let r2 := Logger.setup_logger (Some "T") (Some "DEBUG") (state_after r1) in
  second_U = (Ok sample_logger_U, state_after second_U)
  /\ returned r1 = Some tt /\ returned r2 = Some tt
  /\ Logger.logger (state_after r1).1 = Some "T"
  /\ Logger.logger (state_after r2).1 = Some "T"
  /\ registry_values (state_after r1).1 = [2; 3]%nat
  /\ registry_values (state_after r2).1 = [2; 3]%nat
  /\ attached (state_after r1).2 "T" = [0; 1; 2; 3]%nat
  /\ attached (state_after r2).2 "T" = [2; 3]%nat.
Proof.
  intros st0 r1 r2. split; [exact second_U_run|].
  vm_compute. repeat split; reflexivity.
Qed.

End setup_samples.

Section setup_threshold.
Context `{RT : PyRuntime}.

(** C8.  [setup_logger] returns, and the threshold of the live logger is
    the level mapped from the argument, whatever severity is stored; the
    mapped level is never zero, so the [or] never yields the stored one.  An
    absent argument gives [DEBUG]. *)
Theorem setup_logger_threshold_from_argument
    (name lvl : option string) (this : Logger.t) (w : World) :
  _std_log_level lvl <> 0
  /\ py_or_level (_std_log_level lvl) (Logger.log_level this)
       = inl (_std_log_level lvl)
  /\ _std_log_level None = logging.DEBUG
  /\ exists lg this' w',
       Logger.setup_logger name lvl (this, w) = (Ok tt, (this', w'))
       /\ Logger.logger this' = Some lg
       /\ Logger.log_level this' = Logger.log_level this
       /\ threshold w' lg = _std_log_level lvl.
Proof.
  split; [apply std_log_level_nonzero|]. split; [apply py_or_level_std|].
  split; [exact std_log_level_None|].
  destruct (setup_logger_attached name lvl this w) as (w' & Hrun & Hlvl & _).
  eexists _, _, w'. split; [exact Hrun|]. done.
Qed.

End setup_threshold.

Section setup_threshold_sample.
#[local] Existing Instance ascii_runtime.

(** With the severity [ERROR] stored, [setup_logger(None, None)] sets the
    threshold of the live logger to [DEBUG]. *)
Example setup_logger_ignores_stored_error :
  let this := Logger.mk "T" "/app/logs" "ERROR" logging.ERROR (Some "T")
                {[ "default_formatter" := Logger.DEFAULT_FORMATTER ]} [] in
  threshold (state_after (Logger.setup_logger None None (this, sample_world))).2
    "T" = logging.DEBUG.
Proof. vm_compute. reflexivity. Qed.

End setup_threshold_sample.

(** * Lookups with a fallback *)

Section lookups.
Context `{RT : PyRuntime}.

Lemma get_handler_hit_run this w k h :
  dict_get (Logger.handlers this) k = Some h ->
  Logger.get_handler k (this, w) = (Ok h, (this, w)).
Proof.
  intros Hk. unfold Logger.get_handler, bind, Logger.self. simpl.
  by rewrite Hk.
Qed.

(** A handler stored under a key is the one a lookup of the key returns. *)
Lemma update_then_get_handler this w k h :
  exists st,
    Logger.update_handlers_list k h (this, w) = (Ok tt, st)
    /\ Logger.get_handler k st = (Ok h, st).
Proof.
  eexists. split; [reflexivity|].
  apply get_handler_hit_run. simpl. rewrite dict_get_set. by rewrite decide_True.
Qed.

Lemma dict_contains_get {V} (d : dict V) k (other : option V) :
  (if dict_contains d k then dict_get d k else other)
  = match dict_get d k with Some v => Some v | None => other end.
Proof. unfold dict_contains. by destruct (dict_get d k). Qed.

Lemma get_handler_miss_run this w k :
  dict_get (Logger.handlers this) k = None ->
  exists w',
    heap w' = heap w /\ loggers w' = loggers w
    /\ Logger.get_handler k (this, w) =
         match fallback_choice (Logger.handlers this) with
         | Some h => (Ok h, (this, w'))
         | None => (Raise (UnboundLocalError "h"), (this, w'))
         end.
Proof.
  intros Hk. unfold Logger.get_handler, bind, Logger.self. simpl.
  rewrite Hk. unfold Logger.liftW, print, modify, ret, raise. simpl.
  rewrite !dict_contains_get. unfold fallback_choice.
  match goal with
  | |- context [with_stdout ?f w] => exists (with_stdout f w)
  end.
  split; [done|]. split; [done|].
  destruct (dict_get (Logger.handlers this) "rich_console_handler");
    [reflexivity|].
  destruct (dict_get (Logger.handlers this) "file_handler");
    [reflexivity|].
  destruct (dict_get (Logger.handlers this) "console_handler");
    reflexivity.
Qed.

Lemma fallback_choice_in_registry this h :
  fallback_choice (Logger.handlers this) = Some h -> in_registry this h.
Proof.
  unfold fallback_choice, in_registry. intros H.
  repeat case_match; simplify_eq; eauto.
Qed.

(** C2, as the code has it.  On a miss [get_handler] prints the warning and
    returns a registry entry: the rich-console one when registered, else
    the file one, else the console one.  An instance built by [__init__] and
    used through its methods always has one of the three, so the call
    returns. *)
Theorem get_handler_fallback (this : Logger.t) (w : World) (k : string) :
  constructed this ->
  dict_get (Logger.handlers this) k = None ->
  exists h w',
    Logger.get_handler k (this, w) = (Ok h, (this, w'))
    /\ fallback_choice (Logger.handlers this) = Some h
    /\ in_registry this h
    /\ attached w' = attached w.
Proof.
  intros Hc Hk. apply constructed_ok in Hc as (_ & _ & [h Hh]).
  destruct (get_handler_miss_run this w k Hk) as (w' & _ & Hlog & Hrun).
  rewrite Hh in Hrun. exists h, w'. split; [done|]. split; [done|].
  split; [by apply fallback_choice_in_registry|].
  unfold attached, logging.logger_obj. by rewrite Hlog.
Qed.

End lookups.

Section lookup_samples.
#[local] Existing Instance ascii_runtime.

(** C2, counterexample.  After [reset_handlers_list] the registry holds a
    console and a file handler; a miss returns the file handler, where the
    order console, file, rich-console selects the console handler. *)
Lemma get_handler_prefers_file_over_console :
  let st := state_after
              (Logger.reset_handlers_list (sample_logger, state_after first_T)) in
  dict_get (Logger.handlers st.1) "missing" = None
  /\ dict_get (Logger.handlers st.1) "console_handler" = Some 2%nat
  /\ dict_get (Logger.handlers st.1) "file_handler" = Some 3%nat
  /\ spec_fallback_choice (Logger.handlers st.1) = Some 2%nat
  /\ returned (Logger.get_handler "missing" st) = Some 3%nat
  /\ returned (Logger.get_handler "missing" st)
       <> spec_fallback_choice (Logger.handlers st.1).
Proof.
  vm_compute. repeat split; try reflexivity. discriminate.
Qed.

End lookup_samples.

Section registries.
Context `{RT : PyRuntime}.

Lemma get_formatter_run this w key :
  is_Some (Logger.formatters this !! "default_formatter") ->
  exists f w',
    Logger.get_formatter key (this, w) = (Ok f, (this, w'))
    /\ (forall k g, key = Some k -> Logger.formatters this !! k = Some g -> f = g)
    /\ ((key ≫= fun k => Logger.formatters this !! k) = None ->
        Logger.formatters this !! "default_formatter" = Some f).
Proof.
  intros [d Hd]. unfold Logger.get_formatter, bind, Logger.self. simpl.
  destruct (key ≫= _) as [f|] eqn:Hkey.
  - exists f, w. split; [done|]. split; [|done].
    intros k g -> Hg. simpl in Hkey. congruence.
  - unfold Logger.liftW, print, modify, gmap_getitem. simpl. rewrite Hd.
    eexists d, _. split; [done|]. split; [|done].
    intros k g -> Hg. simpl in Hkey. congruence.
Qed.

(** C9.  The formatter registry of an instance always holds
    ["default_formatter"], and [get_formatter] returns a formatter for every
    key: the entry of the key when it is registered, the default one
    otherwise. *)
Theorem default_formatter_always_registered (this : Logger.t) :
  constructed this ->
  is_Some (Logger.formatters this !! "default_formatter")
  /\ forall key w, exists f w',
       Logger.get_formatter key (this, w) = (Ok f, (this, w'))
       /\ (forall k g, key = Some k ->
             Logger.formatters this !! k = Some g -> f = g)
       /\ ((key ≫= fun k => Logger.formatters this !! k) = None ->
           Logger.formatters this !! "default_formatter" = Some f).
Proof.
  intros Hc. apply constructed_ok in Hc as (Hf & _ & _).
  split; [done|]. intros key w. by apply get_formatter_run.
Qed.

(** * Attaching one registry entry *)

(** C7.  For a key that is not registered [add_handler_logger] returns
    [False] and changes nothing, neither the registry nor any logger; for a
    registered key it returns [True], the entry is attached to the live
    logger afterwards, nothing else is attached or detached, and the
    registry is as before. *)
Theorem add_handler_logger_spec (this : Logger.t) (w : World) (k : string) :
  constructed this ->
  (dict_get (Logger.handlers this) k = None ->
     Logger.add_handler_logger k (this, w) = (Ok false, (this, w)))
  /\ (forall h, dict_get (Logger.handlers this) k = Some h ->
        exists l w',
          Logger.logger this = Some l
          /\ Logger.add_handler_logger k (this, w) = (Ok true, (this, w'))
          /\ h ∈ attached w' l
          /\ (forall x, x ∈ attached w' l <-> x ∈ attached w l \/ x = h)
          /\ same_outside_loggers w w').
Proof.
  intros Hc. apply constructed_ok in Hc as (_ & [l Hl] & _). split.
  - intros Hk. unfold Logger.add_handler_logger, bind, Logger.self,
      dict_contains. simpl. by rewrite Hk.
  - intros h Hk. exists l, (logging.update_logger l (logging.add_hdlr h) w).
    split; [done|]. split.
    { unfold Logger.add_handler_logger, Logger.live_logger, dict_getitem.
      unfold bind, Logger.self, dict_contains. simpl. rewrite Hk. simpl.
      by rewrite Hl. }
    unfold attached. rewrite logger_obj_update_eq.
    split; [apply elem_of_add_hdlr; by right|].
    split; [intros x; apply elem_of_add_hdlr|done].
Qed.

(** * The file handler of the registry *)

Lemma string_length_app (s t : string) :
  String.length (s +:+ t) = (String.length s + String.length t)%nat.
Proof. induction s as [|c s IH]; simpl; [done|]. by rewrite IH. Qed.

Lemma string_app_suffix_ne (s : string) : s <> s +:+ ".log".
Proof.
  intros E. apply (f_equal String.length) in E.
  rewrite string_length_app in E. simpl in E. lia.
Qed.

(** C10.  The file handler that [__init__] registers is constructed on
    [log_path + "/" + module_name + ".log"]; no public operation changes
    [log_path] or [module_name]; the one that [reset_handlers_list]
    registers is constructed on [log_path + "/" + module_name]; the two
    paths differ. *)
Theorem reset_file_path_without_suffix :
  (forall name dir lvl w this w',
     Logger.__init__ name dir lvl w = (Ok this, w') ->
     exists f,
       dict_get (Logger.handlers this) "file_handler" = Some f
       /\ heap w' !! f =
            Some (file_default (Logger.log_level_int this)
                    Logger.DEFAULT_FORMATTER
                    (((Logger.log_path this +:+ "/") +:+ Logger.module_name this)
                       +:+ ".log")))
  /\ (forall op this w r this' w',
        run_op op (this, w) = (r, (this', w')) ->
        Logger.module_name this' = Logger.module_name this
        /\ Logger.log_path this' = Logger.log_path this)
  /\ (forall this w,
        constructed this ->
        open_error (w_os w)
          ((Logger.log_path this +:+ "/") +:+ Logger.module_name this) = None ->
        exists d c f w',
          Logger.formatters this !! "default_formatter" = Some d
          /\ Logger.reset_handlers_list (this, w)
               = (Ok tt,
                  (Logger.with_handlers
                     [("console_handler", c); ("file_handler", f)] this, w'))
          /\ heap w' !! f =
               Some (file_default (Logger.log_level_int this) d
                       ((Logger.log_path this +:+ "/")
                          +:+ Logger.module_name this)))
  /\ (forall this,
        (Logger.log_path this +:+ "/") +:+ Logger.module_name this
        <> ((Logger.log_path this +:+ "/") +:+ Logger.module_name this)
             +:+ ".log").
Proof.
  split; [|split; [|split]].
  - intros name dir lvl w this w' Hinit.
    apply init_inv in Hinit as (lp & w1 & _ & _ & -> & Hheap).
    exists (S (List.length (heap w1))). split; [done|].
    rewrite Hheap. simpl.
    rewrite lookup_app_r by lia.
    by replace (S (List.length (heap w1)) - List.length (heap w1))%nat
      with 1%nat by lia.
  - intros op this w r this' w' Hrun.
    eapply self_step_names, run_op_self, Hrun.
  - intros this w Hc Hopen.
    apply constructed_ok in Hc as ([d Hd] & _ & _).
    pose proof (reset_handlers_list_run this w) as Hrun.
    rewrite Hd in Hrun. cbn zeta in Hrun. rewrite Hopen in Hrun.
    eexists d, _, _, _. split; [done|]. split; [exact Hrun|].
    simpl. rewrite lookup_app_r; rewrite length_app; simpl; [|lia].
    by replace (S (List.length (heap w)) - (List.length (heap w) + 1))%nat
      with 0%nat by lia.
  - intros this. apply string_app_suffix_ne.
Qed.

(** * Construction with the defaults *)

(** C4, as the code has it.  In a process where no handler is attached to
    the logger ["T"] yet, and where the [logs] directory and the log file
    can be created, [Logger("T")] returns; the logger ["T"] is its live
    logger, with [DEBUG] as threshold and exactly two handlers attached, the
    ones of the registry: a rich-console handler and a file handler on
    [log_path + "/" + "T" + ".log"], where [log_path] is the [logs]
    directory under the working directory. *)
Theorem construct_T_spec (w : World) :
  let logs := cwd (w_os w) +:+ "/logs" in
  let path := ((logs +:+ "/") +:+ "T") +:+ ".log" in
  logs ∈ existing (w_os w) \/ mkdir_error (w_os w) logs = None ->
  open_error (w_os w) path = None ->
  attached w "T" = [] ->
  exists this w' r f,
    Logger.__init__ "T" None (Some "DEBUG") w = (Ok this, w')
    /\ Logger.logger this = Some "T"
    /\ Logger.module_name this = "T"
    /\ Logger.log_path this = logs
    /\ Logger.handlers this
         = [("rich_console_handler", r); ("file_handler", f)]
    /\ attached w' "T" = [r; f]
    /\ r <> f
    /\ heap w' !! r = Some (rich_default logging.DEBUG Logger.DEFAULT_FORMATTER)
    /\ heap w' !! f
         = Some (file_default logging.DEBUG Logger.DEFAULT_FORMATTER path)
    /\ threshold w' "T" = logging.DEBUG.
Proof.
  intros logs path Hmk Hopen Hatt.
  pose proof (init_run "T" None (Some "DEBUG") w) as Hrun.
  rewrite derive_log_path_run, derive_default_dir_run in Hrun.
  fold logs in Hrun.
  assert (Hderive :
    exists w1, (if bool_decide (logs ∈ existing (w_os w)) then (Ok logs, w)
                else match mkdir_error (w_os w) logs with
                     | Some e =>
                         (Raise (RuntimeError
                            ("Error resolving log path: " +:+ e)), w)
                     | None => (Ok logs, with_os (os_add_path logs) w)
                     end) = (Ok logs, w1)
      /\ open_error (w_os w1) = open_error (w_os w)
      /\ heap w1 = heap w /\ loggers w1 = loggers w).
  { case_bool_decide as Hin; [by exists w|].
    destruct Hmk as [Hmk|Hmk]; [done|]. rewrite Hmk. by eexists. }
  destruct Hderive as (w1 & Hd & Hopen1 & Hheap1 & Hlog1).
  rewrite Hd in Hrun. cbn zeta in Hrun. fold path in Hrun.
  rewrite Hopen1, Hopen in Hrun.
  cbn [py_str] in Hrun. rewrite py_upper_DEBUG, !std_log_level_DEBUG in Hrun.
  destruct Hrun as (w' & Hrun & _ & _ & Hheap & Hobj & _).
  change (logging.logger_key "T") with "T" in *.
  assert (Hbase : lg_handlers (logging.logger_obj w1 "T") = []).
  { unfold logging.logger_obj. rewrite Hlog1. exact Hatt. }
  set (n := List.length (heap w1)) in *.
  assert (Hfold : lg_handlers (logging.logger_obj w' "T") = [n; S n]).
  { rewrite Hobj. simpl. unfold logging.add_hdlr at 2. simpl. rewrite Hbase.
    rewrite bool_decide_eq_false_2 by (apply not_elem_of_nil). simpl.
    unfold logging.add_hdlr. simpl.
    rewrite bool_decide_eq_false_2; [done|].
    rewrite list_elem_of_singleton. lia. }
  eexists _, w', n, (S n). split; [exact Hrun|].
  split; [done|]. split; [done|]. split; [done|]. split; [done|].
  split; [exact Hfold|]. split; [lia|].
  split; [|split].
  - rewrite Hheap. rewrite lookup_app_r by (unfold n; lia).
    by replace (n - List.length (heap w1))%nat with 0%nat by (unfold n; lia).
  - rewrite Hheap. rewrite lookup_app_r by (unfold n; lia).
    by replace (S n - List.length (heap w1))%nat with 1%nat by (unfold n; lia).
  - unfold threshold. rewrite Hobj, foldl_add_level. done.
Qed.

End registries.

Section sample_theorems.
#[local] Existing Instance ascii_runtime.

(** C4, counterexample.  In the sample process the file handler of
    [Logger("T")] is on ["/app/logs/T.log"], which is neither the resolved
    directory followed by the name nor the two joined by ["/"]; and the
    second [Logger("T")] of the process finds four handlers attached to its
    live logger. *)
Lemma construct_T_path_and_count :
  first_T = (Ok sample_logger, state_after first_T)
  /\ dict_get (Logger.handlers sample_logger) "file_handler" = Some 1%nat
  /\ heap (state_after first_T) !! 1%nat
       = Some (file_default logging.DEBUG Logger.DEFAULT_FORMATTER
                 "/app/logs/T.log")
  /\ "/app/logs/T.log"
       <> Logger.log_path sample_logger +:+ Logger.module_name sample_logger
  /\ "/app/logs/T.log"
       <> (Logger.log_path sample_logger +:+ "/")
            +:+ Logger.module_name sample_logger
  /\ second_T = (Ok sample_logger_T2, state_after second_T)
  /\ Logger.logger sample_logger_T2 = Some "T"
  /\ List.length (attached (state_after second_T) "T") = 4%nat
  /\ List.length (attached (state_after second_T) "T") <> 2%nat.
Proof.
  split; [exact first_T_run|]. split; [reflexivity|].
  split; [vm_compute; reflexivity|].
  split; [vm_compute; discriminate|]. split; [vm_compute; discriminate|].
  split; [exact second_T_run|]. split; [reflexivity|].
  split; [vm_compute; reflexivity|]. vm_compute. discriminate.
Qed.

(** * The theorems at the sample process *)


Lemma derive_log_path_spec_witness :
  exists w',
    _derive_log_path (Some "/fake/path") sample_world = (Ok "/app/logs", w')
    /\ existing (w_os w') = {[ "/app/logs" ]} ∪ existing (w_os sample_world).
Proof.
  destruct (derive_log_path_spec (Some "/fake/path") sample_world)
    as (_ & Hfallback).
  destruct Hfallback as (_ & Hcreate & _).
  - right. exists "/fake/path". split; [reflexivity|]. vm_compute.
    intros H. discriminate H.
  - apply Hcreate; [|reflexivity]. vm_compute.
    intros H. discriminate H.
Defined.

Lemma get_handler_fallback_witness :
  exists h w',
    Logger.get_handler "missing" (sample_logger, sample_world)
      = (Ok h, (sample_logger, w'))
    /\ fallback_choice (Logger.handlers sample_logger) = Some h
    /\ in_registry sample_logger h
    /\ attached w' = attached sample_world.
Proof.
  apply (get_handler_fallback sample_logger sample_world "missing").
  - apply (constructed_init "T" None (Some "DEBUG") sample_world
             sample_logger (state_after first_T)).
    vm_compute. reflexivity.
  - reflexivity.
Defined.

Lemma default_formatter_always_registered_witness :
  is_Some (Logger.formatters sample_logger !! "default_formatter")
  /\ exists f w',
       Logger.get_formatter (Some "rubbish") (sample_logger, sample_world)
         = (Ok f, (sample_logger, w')).
Proof.
  destruct (default_formatter_always_registered sample_logger) as (Hd & Hget).
  - apply (constructed_init "T" None (Some "DEBUG") sample_world
             sample_logger (state_after first_T)).
    vm_compute. reflexivity.
  - split; [exact Hd|].
    destruct (Hget (Some "rubbish") sample_world) as (f & w' & Hrun & _).
    exists f, w'. exact Hrun.
Defined.

Lemma add_handler_logger_spec_witness :
  Logger.add_handler_logger "rubbish" (sample_logger, state_after first_T)
    = (Ok false, (sample_logger, state_after first_T))
  /\ exists w',
       Logger.add_handler_logger "file_handler"
           (sample_logger, state_after first_T)
         = (Ok true, (sample_logger, w'))
       /\ 1%nat ∈ attached w' "T".
Proof.
  destruct (add_handler_logger_spec sample_logger (state_after first_T)
              "rubbish") as (Hmiss & _).
  { apply (constructed_init "T" None (Some "DEBUG") sample_world
             sample_logger (state_after first_T)).
    vm_compute. reflexivity. }
  destruct (add_handler_logger_spec sample_logger (state_after first_T)
              "file_handler") as (_ & Hhit).
  { apply (constructed_init "T" None (Some "DEBUG") sample_world
             sample_logger (state_after first_T)).
    vm_compute. reflexivity. }
  split; [apply Hmiss; reflexivity|].
  destruct (Hhit 1%nat eq_refl) as (l & w' & Hl & Hrun & Hin & _).
  exists w'. split; [exact Hrun|].
  injection Hl as <-. exact Hin.
Defined.

Lemma reset_file_path_without_suffix_witness :
  exists c f w',
    Logger.reset_handlers_list (sample_logger, state_after first_T)
      = (Ok tt,
         (Logger.with_handlers [("console_handler", c); ("file_handler", f)]
            sample_logger, w'))
    /\ heap w' !! f =
         Some (file_default logging.DEBUG Logger.DEFAULT_FORMATTER
                 "/app/logs/T").
Proof.
  destruct reset_file_path_without_suffix as (_ & _ & Hreset & _).
  destruct (Hreset sample_logger (state_after first_T))
    as (d & c & f & w' & Hd & Hrun & Hheap).
  - apply (constructed_init "T" None (Some "DEBUG") sample_world
             sample_logger (state_after first_T)).
    vm_compute. reflexivity.
  - vm_compute. reflexivity.
  - exists c, f, w'. split; [exact Hrun|].
    rewrite Hheap. vm_compute in Hd. injection Hd as <-. reflexivity.
Defined.

Lemma construct_T_spec_witness :
  exists this w',
    Logger.__init__ "T" None (Some "DEBUG") sample_world = (Ok this, w')
    /\ Logger.logger this = Some "T"
    /\ List.length (attached w' "T") = 2%nat
    /\ threshold w' "T" = logging.DEBUG.
Proof.
  destruct (construct_T_spec sample_world)
    as (this & w' & r & f & Hrun & Hl & _ & _ & _ & Hatt & _ & _ & _ & Hlvl).
  - right. reflexivity.
  - reflexivity.
  - vm_compute. reflexivity.
  - exists this, w'. split; [exact Hrun|]. split; [exact Hl|].
    split; [|exact Hlvl]. rewrite Hatt. reflexivity.
Defined.

End sample_theorems.

(** * Further properties of the operations *)

Section further.
Context `{RT : PyRuntime}.

(** * Detaching and attaching single entries *)

Lemma list_remove_first_notin h (l : list nat) :
  h ∉ l -> list_remove_first h l = l.
Proof.
  induction l as [|x l IH]; simpl; [done|]. intros Hin.
  apply not_elem_of_cons in Hin as [Hne Hin].
  rewrite bool_decide_eq_false_2 by done. by rewrite IH.
Qed.

Lemma filter_ne_notin h (l : list nat) :
  h ∉ l -> filter (fun x => x <> h) l = l.
Proof.
  induction l as [|x l IH]; [done|]. intros Hin.
  apply not_elem_of_cons in Hin as [Hne Hin].
  rewrite filter_cons_True by done. by rewrite IH.
Qed.

Lemma list_remove_first_filter h (l : list nat) :
  NoDup l -> list_remove_first h l = filter (fun x => x <> h) l.
Proof.
  induction 1 as [|x l Hx Hnd IH]; simpl; [done|].
  case_bool_decide as E.
  - subst x. rewrite filter_cons_False by (intros Hn; by apply Hn).
    by rewrite filter_ne_notin.
  - rewrite filter_cons_True by done. by rewrite IH.
Qed.

Lemma list_remove_first_app_last h (l : list nat) :
  h ∉ l -> list_remove_first h (l ++ [h]) = l.
Proof.
  induction l as [|x l IH]; simpl; intros Hin.
  - by rewrite bool_decide_eq_true_2.
  - apply not_elem_of_cons in Hin as [Hne Hin].
    rewrite bool_decide_eq_false_2 by done. by rewrite IH.
Qed.

Lemma add_handler_logger_run this w k l h :
  Logger.logger this = Some l ->
  dict_get (Logger.handlers this) k = Some h ->
  Logger.add_handler_logger k (this, w)
    = (Ok true, (this, logging.update_logger l (logging.add_hdlr h) w)).
Proof.
  intros Hl Hk.
  unfold Logger.add_handler_logger, Logger.live_logger, dict_getitem.
  unfold bind, Logger.self, dict_contains. simpl. rewrite Hk. simpl.
  by rewrite Hl.
Qed.

Lemma remove_handler_logger_run this w k l h :
  Logger.logger this = Some l ->
  dict_get (Logger.handlers this) k = Some h ->
  Logger.remove_handler_logger k (this, w)
    = (Ok true, (this, logging.update_logger l (logging.remove_hdlr h) w)).
Proof.
  intros Hl Hk.
  unfold Logger.remove_handler_logger, Logger.live_logger, dict_getitem.
  unfold bind, Logger.self, dict_contains. simpl. rewrite Hk. simpl.
  by rewrite Hl.
Qed.

(** X1.  [reset_handlers_logger] returns [True] exactly when a live logger
    is bound, also when nothing is attached to it; afterwards nothing is
    attached to the live logger, whatever was attached before (duplicates
    included), while every other logger, all thresholds and propagate flags,
    the handler objects and the registry are as before. *)
Theorem reset_handlers_logger_detaches_all (this : Logger.t) (w : World) :
  exists w',
    Logger.reset_handlers_logger (this, w)
      = (Ok (bool_decide (is_Some (Logger.logger this))), (this, w'))
    /\ same_outside_loggers w w'
    /\ (forall l, attached w' l =
          (if decide (Logger.logger this = Some l) then [] else attached w l))
    /\ (forall l, threshold w' l = threshold w l)
    /\ (forall l, lg_propagate (logging.logger_obj w' l)
                  = lg_propagate (logging.logger_obj w l)).
Proof.
  destruct (reset_handlers_logger_run this w) as (w' & Hrun & Hout & Hobj).
  exists w'. split; [done|]. split; [done|].
  unfold attached, threshold.
  split; [|split]; intros l; rewrite Hobj; case_decide; done.
Qed.

(** X2.  With a live logger bound, [remove_handler_logger] on a registered
    key returns [True] and detaches that entry: when no handler is attached
    twice, the attached list afterwards is the one before without the
    entry, in the same order.  The registry and the other loggers are as
    before. *)
Theorem remove_handler_logger_detaches
    (this : Logger.t) (w : World) (k l : string) (h : nat) :
  Logger.logger this = Some l ->
  dict_get (Logger.handlers this) k = Some h ->
  NoDup (attached w l) ->
  exists w',
    Logger.remove_handler_logger k (this, w) = (Ok true, (this, w'))
    /\ same_outside_loggers w w'
    /\ attached w' l = filter (fun x => x <> h) (attached w l)
    /\ (h ∉ attached w' l)
    /\ (forall l', attached w' l' =
          (if decide (l = l') then attached w' l else attached w l')).
Proof.
  intros Hl Hk Hnd. eexists. split; [by apply remove_handler_logger_run|].
  split; [done|].
  assert (Hatt : attached (logging.update_logger l (logging.remove_hdlr h) w) l
                 = filter (fun x => x <> h) (attached w l)).
  { unfold attached. rewrite logger_obj_update_eq. unfold logging.remove_hdlr.
    case_bool_decide as Hin; simpl.
    - by apply list_remove_first_filter.
    - by rewrite filter_ne_notin. }
  split; [exact Hatt|]. split.
  - rewrite Hatt, list_elem_of_filter. naive_solver.
  - intros l'. case_decide as E; [by subst|].
    unfold attached. by rewrite logger_obj_update_ne.
Qed.

(** X3.  Attaching a registered entry that is not attached yet and then
    detaching it again gives back every logger as it was: both calls return
    [True] and the attached list of the live logger is the one before. *)
Theorem add_then_remove_handler_logger
    (this : Logger.t) (w : World) (k l : string) (h : nat) :
  Logger.logger this = Some l ->
  dict_get (Logger.handlers this) k = Some h ->
  h ∉ attached w l ->
  exists w1 w2,
    Logger.add_handler_logger k (this, w) = (Ok true, (this, w1))
    /\ Logger.remove_handler_logger k (this, w1) = (Ok true, (this, w2))
    /\ attached w1 l = attached w l ++ [h]
    /\ forall l', logging.logger_obj w2 l' = logging.logger_obj w l'.
Proof.
  intros Hl Hk Hnin. eexists _, _.
  split; [by apply add_handler_logger_run|].
  split; [by apply remove_handler_logger_run|].
  unfold attached in *. split.
  - rewrite logger_obj_update_eq. unfold logging.add_hdlr.
    by rewrite bool_decide_eq_false_2.
  - intros l'. destruct (decide (l = l')) as [<-|Hne].
    + rewrite !logger_obj_update_eq.
      unfold logging.add_hdlr. rewrite bool_decide_eq_false_2 by done.
      unfold logging.remove_hdlr. simpl.
      rewrite bool_decide_eq_true_2
        by (apply elem_of_app; right; apply list_elem_of_here).
      apply PyLogger_eq; simpl; [done|done|].
      by apply list_remove_first_app_last.
    + by rewrite !logger_obj_update_ne.
Qed.

(** X4.  [add_handler_logger] is idempotent: a second call with the same
    registered key returns [True] again and leaves the instance and the
    whole process state as the first call left them.  The entry is appended
    only when it is not attached yet, so it is never attached twice. *)
Theorem add_handler_logger_idempotent
    (this : Logger.t) (w : World) (k l : string) (h : nat) :
  Logger.logger this = Some l ->
  dict_get (Logger.handlers this) k = Some h ->
  exists w1,
    Logger.add_handler_logger k (this, w) = (Ok true, (this, w1))
    /\ Logger.add_handler_logger k (this, w1) = (Ok true, (this, w1))
    /\ attached w1 l =
         (if bool_decide (h ∈ attached w l) then attached w l
          else attached w l ++ [h]).
Proof.
  intros Hl Hk. eexists. split; [by apply add_handler_logger_run|].
  set (w1 := logging.update_logger l (logging.add_hdlr h) w).
  assert (Hatt : attached w1 l =
                 (if bool_decide (h ∈ attached w l) then attached w l
                  else attached w l ++ [h])).
  { unfold attached, w1. rewrite logger_obj_update_eq. unfold logging.add_hdlr.
    by case_bool_decide. }
  split; [|exact Hatt].
  rewrite (add_handler_logger_run this w1 k l h Hl Hk). do 2 f_equal.
  assert (Hin : h ∈ lg_handlers (logging.logger_obj w1 l)).
  { unfold w1. rewrite logger_obj_update_eq. apply elem_of_add_hdlr. by right. }
  unfold logging.update_logger at 1, with_loggers.
  assert (logging.add_hdlr h (logging.logger_obj w1 l) = logging.logger_obj w1 l)
    as ->.
  { unfold logging.add_hdlr. by rewrite bool_decide_eq_true_2. }
  assert (loggers w1 !! l = Some (logging.logger_obj w1 l)) as Hlook.
  { unfold logging.logger_obj, w1, logging.update_logger. simpl.
    by rewrite lookup_insert_eq. }
  rewrite (insert_id _ _ _ Hlook). by destruct w1.
Qed.

(** X5.  Without a live logger ([logger] is [None]),
    [reset_handlers_logger] returns [False]; [add_handler_logger] and
    [remove_handler_logger] return [False] for a key that is not
    registered and raise [AttributeError] for a registered one.  Nothing is
    changed in any of these cases. *)
Theorem no_live_logger_bound (this : Logger.t) (w : World) (k : string) :
  Logger.logger this = None ->
  Logger.reset_handlers_logger (this, w) = (Ok false, (this, w))
  /\ Logger.add_handler_logger k (this, w) =
       (if dict_contains (Logger.handlers this) k
        then (Raise (AttributeError
                       "'NoneType' object has no attribute 'addHandler'"),
              (this, w))
        else (Ok false, (this, w)))
  /\ Logger.remove_handler_logger k (this, w) =
       (if dict_contains (Logger.handlers this) k
        then (Raise (AttributeError
                       "'NoneType' object has no attribute 'removeHandler'"),
              (this, w))
        else (Ok false, (this, w))).
Proof.
  intros Hl. split; [|split].
  - unfold Logger.reset_handlers_logger, bind at 1, Logger.self.
    cbn [fst snd]. by rewrite Hl.
  - unfold Logger.add_handler_logger, Logger.live_logger.
    unfold bind, Logger.self, raise. simpl.
    destruct (dict_contains (Logger.handlers this) k); [|done].
    cbn [fst snd]. by rewrite Hl.
  - unfold Logger.remove_handler_logger, Logger.live_logger.
    unfold bind, Logger.self, raise. simpl.
    destruct (dict_contains (Logger.handlers this) k); [|done].
    cbn [fst snd]. by rewrite Hl.
Qed.


(** * The handler registry *)

Lemma dict_keys_set {V} (d : dict V) k v :
  dict_keys (dict_set d k v) =
  if dict_contains d k then dict_keys d else dict_keys d ++ [k].
Proof.
  unfold dict_contains.
  induction d as [|[k0 v0] d IH]; simpl; [done|].
  case_bool_decide as E; simpl; [done|].
  rewrite IH. by destruct (dict_get d k).
Qed.

(** X6.  [update_handlers_list] is an insert-or-overwrite that touches the
    registry only: the process state is unchanged (nothing is attached), a
    lookup of the key returns the stored handler without a warning, the
    other keys keep their entries, and the key order is kept, a new key
    going last. *)
Theorem update_handlers_list_roundtrip
    (this : Logger.t) (w : World) (k : string) (h : nat) :
  exists this',
    Logger.update_handlers_list k h (this, w) = (Ok tt, (this', w))
    /\ Logger.get_handler k (this', w) = (Ok h, (this', w))
    /\ (forall k', dict_get (Logger.handlers this') k' =
          (if decide (k = k') then Some h
           else dict_get (Logger.handlers this) k'))
    /\ dict_keys (Logger.handlers this') =
         (if dict_contains (Logger.handlers this) k
          then dict_keys (Logger.handlers this)
          else dict_keys (Logger.handlers this) ++ [k])
    /\ Logger.logger this' = Logger.logger this
    /\ Logger.formatters this' = Logger.formatters this.
Proof.
  eexists. split; [reflexivity|]. split.
  { apply get_handler_hit_run. simpl. rewrite dict_get_set.
    by rewrite decide_True. }
  split; [intros k'; apply dict_get_set|].
  split; [apply dict_keys_set|]. done.
Qed.

(** X7.  When the default formatter is registered and the log file can be
    opened, [reset_handlers_list] replaces the registry by exactly two
    entries, ["console_handler"] then ["file_handler"], both new handler
    objects on the stored level and the registered default formatter (the
    console one on standard output).  The loggers are untouched, so what
    was attached before stays attached, and the existing handler objects
    are kept. *)
Theorem reset_handlers_list_reseeds
    (this : Logger.t) (w : World) (d : Formatter) :
  Logger.formatters this !! "default_formatter" = Some d ->
  open_error (w_os w)
    ((Logger.log_path this +:+ "/") +:+ Logger.module_name this) = None ->
  let n := List.length (heap w) in
  let path := (Logger.log_path this +:+ "/") +:+ Logger.module_name this in
  exists w',
    Logger.reset_handlers_list (this, w)
      = (Ok tt,
         (Logger.with_handlers
            [("console_handler", n); ("file_handler", S n)] this, w'))
    /\ heap w' = heap w ++
         [ {| h_kind := StreamHandler sys_stdout; h_formatter := Some d;
              h_level := Logger.log_level_int this |};
           file_default (Logger.log_level_int this) d path ]
    /\ loggers w' = loggers w
    /\ stdout w' = stdout w
    /\ existing (w_os w') =
         {[ path ]} ∪ also_created (w_os w) path ∪ existing (w_os w).
Proof.
  intros Hd Hopen n path.
  pose proof (reset_handlers_list_run this w) as Hrun.
  rewrite Hd in Hrun. cbn zeta in Hrun. rewrite Hopen in Hrun.
  eexists. split; [exact Hrun|]. simpl.
  split; [by rewrite <- app_assoc|]. done.
Qed.

(** X8.  When the log file cannot be opened, [reset_handlers_list] raises
    the error of the open, and the registry is left with the new console
    handler as its only entry: the entries it held before are gone.  The
    loggers and the file system are untouched. *)
Theorem reset_handlers_list_partial_on_failure
    (this : Logger.t) (w : World) (d : Formatter) (e : PyExn) :
  Logger.formatters this !! "default_formatter" = Some d ->
  open_error (w_os w)
    ((Logger.log_path this +:+ "/") +:+ Logger.module_name this) = Some e ->
  exists w',
    Logger.reset_handlers_list (this, w)
      = (Raise e,
         (Logger.with_handlers
            [("console_handler", List.length (heap w))] this, w'))
    /\ heap w' = heap w ++
         [ {| h_kind := StreamHandler sys_stdout; h_formatter := Some d;
              h_level := Logger.log_level_int this |} ]
    /\ loggers w' = loggers w
    /\ w_os w' = w_os w.
Proof.
  intros Hd Hopen.
  pose proof (reset_handlers_list_run this w) as Hrun.
  rewrite Hd in Hrun. cbn zeta in Hrun. rewrite Hopen in Hrun.
  eexists. split; [exact Hrun|]. done.
Qed.

(** * Setup *)

Lemma foldl_add_fresh (vs : list nat) (o : PyLogger) :
  NoDup (lg_handlers o ++ vs) ->
  lg_handlers (foldl (fun o h => logging.add_hdlr h o) o vs)
  = lg_handlers o ++ vs.
Proof.
  revert o. induction vs as [|v vs IH]; intros o Hnd; simpl.
  - by rewrite app_nil_r.
  - assert (Hv : v ∉ lg_handlers o).
    { apply NoDup_app in Hnd as (_ & Hdis & _). intros Hin.
      apply (Hdis v Hin). by left. }
    rewrite IH; unfold logging.add_hdlr;
      rewrite bool_decide_eq_false_2 by done; simpl.
    + by rewrite <- app_assoc.
    + by rewrite <- app_assoc.
Qed.

(** X9.  When [setup_logger] targets the logger that is already the live
    one, or a logger with nothing attached, it returns with that logger as
    live logger, forwarding to the parent switched off, the threshold
    mapped from the level argument, and the attached set equal to the value
    set of the registry; when the registry values are pairwise distinct the
    attached list is the list of the values in key order. *)
Theorem setup_logger_sync_when_clean
    (name lvl : option string) (this : Logger.t) (w : World) :
  let lg := logging.logger_key (py_or_str name (Logger.module_name this)) in
  Logger.logger this = Some lg \/ attached w lg = [] ->
  exists w',
    Logger.setup_logger name lvl (this, w)
      = (Ok tt, (Logger.with_logger (Some lg) this, w'))
    /\ synced (Logger.with_logger (Some lg) this, w')
    /\ lg_propagate (logging.logger_obj w' lg) = false
    /\ threshold w' lg = _std_log_level lvl
    /\ same_outside_loggers w w'
    /\ (NoDup (registry_values this) ->
        attached w' lg = registry_values this).
Proof.
  intros lg Hclean.
  destruct (setup_logger_run name lvl this w) as (w' & Hrun & Hout & Hobj & _).
  fold lg in Hrun, Hobj. exists w'. split; [exact Hrun|].
  assert (Hbase : lg_handlers
            ((if decide (Logger.logger this = Some lg)
              then logging.set_lg_handlers [] else id)
               (logging.set_lg_level (_std_log_level lvl)
                  (logging.logger_obj w lg))) = []).
  { case_decide as E; [done|]. destruct Hclean as [?|Hatt]; [done|].
    exact Hatt. }
  split.
  { exists lg. split; [done|]. intros h. simpl. unfold attached.
    rewrite Hobj, elem_of_foldl_add. simpl. rewrite Hbase, elem_of_nil.
    rewrite elem_of_registry_values.
    change (in_registry (Logger.with_logger (Some lg) this) h)
      with (in_registry this h).
    naive_solver. }
  split; [by rewrite Hobj, foldl_add_propagate|].
  split; [unfold threshold; rewrite Hobj, foldl_add_level; simpl;
          by case_decide|].
  split; [done|].
  intros Hnd. unfold attached. rewrite Hobj, foldl_add_fresh; simpl.
  - by rewrite Hbase.
  - by rewrite Hbase.
Qed.

(** X10.  When [setup_logger] moves the instance from its live logger to
    a logger of another name, the old logger is left with nothing attached
    (its threshold and propagate flag stay), and every third logger is as
    before. *)
Theorem setup_logger_empties_previous
    (name lvl : option string) (this : Logger.t) (w : World) (old : string) :
  let lg := logging.logger_key (py_or_str name (Logger.module_name this)) in
  Logger.logger this = Some old ->
  old <> lg ->
  exists w',
    Logger.setup_logger name lvl (this, w)
      = (Ok tt, (Logger.with_logger (Some lg) this, w'))
    /\ attached w' old = []
    /\ threshold w' old = threshold w old
    /\ (forall l, logging.logger_obj w' l =
          (if decide (l = lg) then logging.logger_obj w' lg
           else if decide (l = old)
                then logging.set_lg_handlers [] (logging.logger_obj w old)
                else logging.logger_obj w l)).
Proof.
  intros lg Hold Hne.
  destruct (setup_logger_run name lvl this w) as (w' & Hrun & _ & _ & Hother).
  fold lg in Hrun, Hother. exists w'. split; [exact Hrun|].
  assert (Hobj : logging.logger_obj w' old
                 = logging.set_lg_handlers [] (logging.logger_obj w old)).
  { rewrite Hother by done. by rewrite decide_True. }
  unfold attached, threshold. rewrite Hobj. split; [done|]. split; [done|].
  intros l. case_decide as E1; [by subst|].
  rewrite Hother by done. rewrite Hold.
  case_decide as E2.
  - injection E2 as <-. by rewrite decide_True.
  - rewrite decide_False; [done|]. congruence.
Qed.

(** X11.  After a successful [reset_handlers_list], a [setup_logger] on the
    live logger attaches exactly the two reseeded handlers, console then
    file, and nothing of what was attached before. *)
Theorem reset_then_setup_logger
    (name lvl : option string) (this : Logger.t) (w : World) (d : Formatter) :
  let lg := logging.logger_key (py_or_str name (Logger.module_name this)) in
  let n := List.length (heap w) in
  Logger.formatters this !! "default_formatter" = Some d ->
  open_error (w_os w)
    ((Logger.log_path this +:+ "/") +:+ Logger.module_name this) = None ->
  Logger.logger this = Some lg ->
  exists this1 w1 this2 w2,
    Logger.reset_handlers_list (this, w) = (Ok tt, (this1, w1))
    /\ Logger.setup_logger name lvl (this1, w1) = (Ok tt, (this2, w2))
    /\ Logger.handlers this2
         = [("console_handler", n); ("file_handler", S n)]
    /\ Logger.logger this2 = Some lg
    /\ attached w2 lg = [n; S n].
Proof.
  intros lg n Hd Hopen Hl.
  pose proof (reset_handlers_list_run this w) as Hreset.
  rewrite Hd in Hreset. cbn zeta in Hreset. rewrite Hopen in Hreset.
  fold n in Hreset.
  set (this1 := Logger.with_handlers _ this) in Hreset.
  set (w1 := with_heap _ _) in Hreset.
  destruct (setup_logger_run name lvl this1 w1) as (w2 & Hrun & _ & Hobj & _).
  change (Logger.module_name this1) with (Logger.module_name this) in *.
  change (Logger.logger this1) with (Logger.logger this) in *.
  fold lg in Hrun, Hobj.
  exists this1, w1, (Logger.with_logger (Some lg) this1), w2.
  split; [exact Hreset|]. split; [exact Hrun|]. split; [done|].
  split; [done|].
  unfold attached. rewrite Hobj. rewrite decide_True by done.
  change (registry_values this1) with [n; S n].
  simpl. unfold logging.add_hdlr at 2. simpl.
  unfold logging.add_hdlr. simpl.
  rewrite bool_decide_eq_false_2; [done|].
  rewrite list_elem_of_singleton. lia.
Qed.


(** * The path resolver as a whole *)

Lemma derive_log_path_frame candidate w r w' :
  _derive_log_path candidate w = (r, w') ->
  stdout w' = stdout w /\ heap w' = heap w /\ loggers w' = loggers w
  /\ cwd (w_os w') = cwd (w_os w)
  /\ mkdir_error (w_os w') = mkdir_error (w_os w)
  /\ open_error (w_os w') = open_error (w_os w)
  /\ existing (w_os w) ⊆ existing (w_os w').
Proof.
  rewrite derive_log_path_run.
  assert (Hdef : derive_default_dir (cwd (w_os w)) w = (r, w') ->
    stdout w' = stdout w /\ heap w' = heap w /\ loggers w' = loggers w
    /\ cwd (w_os w') = cwd (w_os w)
    /\ mkdir_error (w_os w') = mkdir_error (w_os w)
    /\ open_error (w_os w') = open_error (w_os w)
    /\ existing (w_os w) ⊆ existing (w_os w')).
  { rewrite derive_default_dir_run. case_bool_decide.
    - by intros [= <- <-].
    - destruct (mkdir_error (w_os w) _); intros [= <- <-]; [done|].
      simpl. split_and!; try done. set_solver. }
  destruct candidate as [p|]; [|exact Hdef].
  case_bool_decide; [|exact Hdef]. by intros [= <- <-].
Qed.

(** X12.  When [_derive_log_path] returns, the returned path exists
    afterwards and is either the working directory joined with the
    candidate or the [logs] directory under the working directory; no path
    that existed is lost, and nothing but the file system changes. *)
Theorem derive_log_path_result_exists
    (candidate : option string) (w w' : World) (p : string) :
  _derive_log_path candidate w = (Ok p, w') ->
  p ∈ existing (w_os w')
  /\ (p = cwd (w_os w) +:+ "/logs"
      \/ exists q, candidate = Some q /\ p = (cwd (w_os w) +:+ "/") +:+ q)
  /\ existing (w_os w) ⊆ existing (w_os w')
  /\ stdout w' = stdout w /\ heap w' = heap w /\ loggers w' = loggers w.
Proof.
  intros Hrun.
  destruct (derive_log_path_frame _ _ _ _ Hrun)
    as (Hout & Hheap & Hlog & _ & _ & _ & Hsub).
  rewrite derive_log_path_run in Hrun.
  assert (Hdef : derive_default_dir (cwd (w_os w)) w = (Ok p, w') ->
    p ∈ existing (w_os w') /\ p = cwd (w_os w) +:+ "/logs").
  { rewrite derive_default_dir_run. case_bool_decide as Hin.
    - by intros [= <- <-].
    - destruct (mkdir_error (w_os w) _); intros [= <- <-].
      split; [|done]. simpl. set_solver. }
  assert (p ∈ existing (w_os w')
          /\ (p = cwd (w_os w) +:+ "/logs"
              \/ exists q, candidate = Some q
                   /\ p = (cwd (w_os w) +:+ "/") +:+ q)) as [? ?];
    [|done].
  destruct candidate as [q|].
  - case_bool_decide as Hin.
    + injection Hrun as <- <-. split; [done|]. right. by exists q.
    + destruct (Hdef Hrun) as [? ?]. split; [done|]. by left.
  - destruct (Hdef Hrun) as [? ?]. split; [done|]. by left.
Qed.



(** * Construction with any arguments *)

Lemma std_log_level_upper (s : string) :
  is_ascii s = true ->
  _std_log_level (Some (py_upper s)) = _std_log_level (Some s).
Proof. intros Hs. unfold _std_log_level. by rewrite py_upper_idem_ascii. Qed.

Lemma std_log_level_upper_None :
  _std_log_level (Some (py_upper "None")) = logging.INFO.
Proof.
  rewrite (py_upper_ascii "None" eq_refl). unfold _std_log_level.
  rewrite (py_upper_ascii (str_upper "None") eq_refl). reflexivity.
Qed.

Lemma init_inv_full name dir lvl w this w' :
  Logger.__init__ name dir lvl w = (Ok this, w') ->
  exists lp w1,
    let path := ((lp +:+ "/") +:+ name) +:+ ".log" in
    let n := List.length (heap w1) in
    let lg := logging.logger_key name in
    _derive_log_path dir w = (Ok lp, w1)
    /\ this = Logger.mk name lp (py_upper (py_str lvl)) (_std_log_level lvl)
                (Some lg)
                {[ "default_formatter" := Logger.DEFAULT_FORMATTER ]}
                [("rich_console_handler", n); ("file_handler", S n)]
    /\ w_os w' = os_add_path path (w_os w1)
    /\ stdout w' = stdout w1
    /\ heap w' = heap w1 ++
         [rich_default (_std_log_level lvl) Logger.DEFAULT_FORMATTER;
          file_default (_std_log_level lvl) Logger.DEFAULT_FORMATTER path]
    /\ logging.logger_obj w' lg =
         foldl (fun o h => logging.add_hdlr h o)
           (logging.set_lg_propagate false
              (logging.set_lg_level
                 (_std_log_level (Some (py_upper (py_str lvl))))
                 (logging.logger_obj w1 lg)))
           [n; S n]
    /\ forall l, lg <> l -> logging.logger_obj w' l = logging.logger_obj w1 l.
Proof.
  intros Hinit. pose proof (init_run name dir lvl w) as Hrun.
  destruct (_derive_log_path dir w) as [[lp|e] w1]; [|congruence].
  cbn zeta in Hrun. exists lp, w1. cbn zeta. split; [done|].
  destruct (open_error (w_os w1) _) as [e|].
  - destruct Hrun as (? & Hrun). congruence.
  - destruct Hrun as (w'' & Hrun & Hrest).
    rewrite Hrun in Hinit. injection Hinit as <- <-. done.
Qed.

Lemma foldl_add_two n (o : PyLogger) :
  lg_handlers o = [] ->
  lg_handlers (foldl (fun o h => logging.add_hdlr h o) o [n; S n]) = [n; S n].
Proof.
  intros Ho. rewrite foldl_add_fresh; rewrite Ho; [done|]. simpl.
  apply NoDup_cons. split; [|apply NoDup_singleton].
  rewrite list_elem_of_singleton. lia.
Qed.

(** X14.  An instance that [__init__] returns stores the upper-cased text
    of the level argument and its mapped number, and both registered
    handlers are on that number.  The threshold of the live logger is mapped
    from the stored text, not from the argument.  For an ASCII level text
    this is the stored number; for the argument [None] it is [INFO]: the
    stored text is then the upper-casing of ["None"], which [setup_logger]
    maps as an unknown name, while the stored number is [DEBUG]. *)
Theorem construct_levels
    (name : string) (dir lvl : option string) (w w' : World) (this : Logger.t) :
  Logger.__init__ name dir lvl w = (Ok this, w') ->
  Logger.logger this = Some (logging.logger_key name)
  /\ Logger.log_level this = py_upper (py_str lvl)
  /\ Logger.log_level_int this = _std_log_level lvl
  /\ threshold w' (logging.logger_key name)
       = _std_log_level (Some (Logger.log_level this))
  /\ match lvl with
     | Some s =>
         is_ascii s = true ->
         threshold w' (logging.logger_key name) = Logger.log_level_int this
     | None =>
         threshold w' (logging.logger_key name) = logging.INFO
         /\ Logger.log_level_int this = logging.DEBUG
     end
  /\ Forall (fun h => exists o, heap w' !! h = Some o
                        /\ h_level o = Logger.log_level_int this
                        /\ h_formatter o = Some Logger.DEFAULT_FORMATTER)
       (registry_values this).
Proof.
  intros Hinit.
  apply init_inv_full in Hinit
    as (lp & w1 & _ & -> & _ & _ & Hheap & Hobj & _).
  assert (Hthr : threshold w' (logging.logger_key name)
                 = _std_log_level (Some (py_upper (py_str lvl)))).
  { unfold threshold. by rewrite Hobj, foldl_add_level. }
  split; [done|]. split; [done|]. split; [done|]. split; [exact Hthr|].
  split.
  - rewrite Hthr. cbn [Logger.log_level_int].
    destruct lvl as [s|]; cbn [py_str].
    + apply std_log_level_upper.
    + split; [exact std_log_level_upper_None|exact std_log_level_None].
  - change (registry_values _)
      with [List.length (heap w1); S (List.length (heap w1))].
    rewrite Hheap. repeat apply Forall_cons_2; [| |apply Forall_nil_2].
    + eexists. split.
      { rewrite lookup_app_r by lia. rewrite Nat.sub_diag. reflexivity. }
      split; reflexivity.
    + eexists. split.
      { rewrite lookup_app_r by lia.
        replace (S (List.length (heap w1)) - List.length (heap w1))%nat
          with 1%nat by lia. reflexivity. }
      split; reflexivity.
Qed.

(** X15.  An instance that [__init__] returns for a logger name with
    nothing attached beforehand has exactly its two registered handlers
    attached to the live logger, rich-console then file, with forwarding to
    the parent switched off; the other loggers are as before. *)
Theorem construct_on_unused_logger
    (name : string) (dir lvl : option string) (w w' : World) (this : Logger.t) :
  attached w (logging.logger_key name) = [] ->
  Logger.__init__ name dir lvl w = (Ok this, w') ->
  attached w' (logging.logger_key name) = registry_values this
  /\ List.length (registry_values this) = 2%nat
  /\ synced (this, w')
  /\ lg_propagate (logging.logger_obj w' (logging.logger_key name)) = false
  /\ (forall l, attached w' l =
         (if decide (l = logging.logger_key name)
          then registry_values this else attached w l)).
Proof.
  intros Hclean Hinit.
  apply init_inv_full in Hinit
    as (lp & w1 & Hd & -> & _ & _ & _ & Hobj & Hother).
  destruct (derive_log_path_frame _ _ _ _ Hd) as (_ & _ & Hlog & _).
  assert (Hw1 : forall l, logging.logger_obj w1 l = logging.logger_obj w l).
  { intros l. unfold logging.logger_obj. by rewrite Hlog. }
  change (registry_values _)
    with [List.length (heap w1); S (List.length (heap w1))].
  assert (Hatt : attached w' (logging.logger_key name)
                 = [List.length (heap w1); S (List.length (heap w1))]).
  { unfold attached. rewrite Hobj. apply foldl_add_two. simpl.
    rewrite Hw1. exact Hclean. }
  split; [exact Hatt|]. split; [done|]. split.
  { exists (logging.logger_key name). split; [done|]. intros h. simpl.
    rewrite Hatt, <- elem_of_registry_values. done. }
  split; [by rewrite Hobj, foldl_add_propagate|].
  intros l. case_decide as E; [by subst|].
  unfold attached. rewrite Hother by done. by rewrite Hw1.
Qed.


Lemma init_handlers_open_failure this0 w1 f e :
  Logger.formatters this0 !! "default_formatter" = Some f ->
  Logger.handlers this0 = [] ->
  open_error (w_os w1)
    (((Logger.log_path this0 +:+ "/") +:+ Logger.module_name this0)
       +:+ ".log") = Some e ->
  Logger.init_handlers (this0, w1)
    = (Raise e,
       (Logger.with_handlers
          [("rich_console_handler", List.length (heap w1))] this0,
        with_heap (fun hp => hp ++
          [rich_default (Logger.log_level_int this0) f]) w1)).
Proof.
  intros Hf Hh Hopen. unfold Logger.init_handlers.
  unfold bind at 1, Logger.self at 1. cbn [fst snd].
  rewrite (bind_run _ _ _ _ _ (gmap_getitem_run _ _ _ _ Hf)).
  rewrite (bind_run _ _ _ _ _
             (liftW_run _ _ _ _ _ (create_rich_console_handler_run _ _ _ _ _))).
  unfold bind at 1, Logger.handlers_setitem at 1, bind at 1, Logger.self at 1,
    Logger.set_handlers at 1, modify at 1. cbn [fst snd]. rewrite Hh.
  unfold bind at 1, Logger.self at 1. cbn [fst snd].
  rewrite (bind_run _ _ _ _ _ (gmap_getitem_run _ _ _ _ Hf)).
  cbn [Logger.with_handlers Logger.log_level_int Logger.log_path
       Logger.module_name dict_set].
  set (w2 := with_heap _ w1).
  pose proof (create_file_handler_run (Logger.log_level_int this0) f
    (((Logger.log_path this0 +:+ "/") +:+ Logger.module_name this0) +:+ ".log")
    "a" None None w2) as Hfile.
  change (open_answer (w_os w2) ?p "a" None None)
    with (open_error (w_os w1) p) in Hfile.
  rewrite Hopen in Hfile.
  by rewrite (bind_raise _ _ _ _ _ (liftW_run _ _ _ _ _ Hfile)).
Qed.

(** X16.  A construction that raises leaves no logger created or changed
    and prints nothing.  It raises [RuntimeError] when the [logs] directory
    cannot be created, with the whole process state unchanged, or the
    error of the open when the log file cannot be opened, in which case the
    rich-console handler has already been created. *)
Theorem construct_failure
    (name : string) (dir lvl : option string) (w w' : World) (e : PyExn) :
  Logger.__init__ name dir lvl w = (Raise e, w') ->
  loggers w' = loggers w
  /\ stdout w' = stdout w
  /\ ((exists m, e = RuntimeError m /\ w' = w)
      \/ ((exists lp,
             open_error (w_os w) (((lp +:+ "/") +:+ name) +:+ ".log") = Some e)
          /\ heap w' = heap w ++
               [rich_default (_std_log_level lvl) Logger.DEFAULT_FORMATTER])).
Proof.
  intros Hinit. unfold Logger.__init__ in Hinit.
  destruct (_derive_log_path dir w) as [[lp|e0] w1] eqn:Hd.
  - rewrite (bind_run _ _ _ _ _ Hd) in Hinit.
    destruct (derive_log_path_frame _ _ _ _ Hd)
      as (Hout & Hheap & Hlog & _ & _ & Hsame & _).
    set (fresh := Logger.mk _ _ _ _ _ _ _) in Hinit.
    pose proof (init_handlers_run fresh w1 Logger.DEFAULT_FORMATTER
                  (lookup_singleton_eq _ _) eq_refl eq_refl) as Hok.
    pose proof (init_handlers_open_failure fresh w1 Logger.DEFAULT_FORMATTER)
      as Hfail.
    cbn zeta in Hok.
    destruct (open_error (w_os w1) _) as [m|] eqn:Hopen.
    + rewrite (Hfail m (lookup_singleton_eq _ _) eq_refl eq_refl) in Hinit.
      injection Hinit as <- <-. simpl.
      split; [done|]. split; [done|]. right. split; [|by rewrite Hheap].
      exists lp. rewrite <- Hsame. exact Hopen.
    + destruct Hok as (w2 & Hok & _). rewrite Hok in Hinit. discriminate.
  - rewrite (bind_raise _ _ _ _ _ Hd) in Hinit. injection Hinit as <- <-.
    rewrite derive_log_path_run in Hd.
    assert (Hdef : derive_default_dir (cwd (w_os w)) w = (Raise e0, w1) ->
                   exists m, e0 = RuntimeError m /\ w1 = w).
    { rewrite derive_default_dir_run. case_bool_decide; [done|].
      destruct (mkdir_error (w_os w) _); [|done].
      intros [= <- <-]. by eexists. }
    assert (exists m, e0 = RuntimeError m /\ w1 = w) as (m & -> & ->).
    { destruct dir as [p|]; [|by apply Hdef].
      case_bool_decide; [done|by apply Hdef]. }
    split; [done|]. split; [done|]. left. by exists m.
Qed.


(** * Lookups: what a miss does *)

(** X17.  On a miss [get_handler] prints one line and changes nothing
    else.  When none of ["console_handler"], ["file_handler"] and
    ["rich_console_handler"] is registered, it then raises
    [UnboundLocalError] instead of returning. *)
Theorem get_handler_miss_without_defaults
    (this : Logger.t) (w : World) (k : string) :
  dict_get (Logger.handlers this) k = None ->
  fallback_choice (Logger.handlers this) = None ->
  exists line,
    Logger.get_handler k (this, w)
      = (Raise (UnboundLocalError "h"),
         (this, with_stdout (fun out => out ++ [line]) w)).
Proof.
  intros Hk Hnone. unfold Logger.get_handler, bind, Logger.self. simpl.
  rewrite Hk. unfold Logger.liftW, print, modify, ret, raise. simpl.
  rewrite !dict_contains_get. unfold fallback_choice in Hnone.
  destruct (dict_get (Logger.handlers this) "rich_console_handler");
    [discriminate|].
  destruct (dict_get (Logger.handlers this) "file_handler"); [discriminate|].
  rewrite Hnone. by eexists.
Qed.


(** * The formatter registry *)

(** X19.  [update_formatters_list] is an insert-or-overwrite that touches
    the formatter registry only: the process state is unchanged (handlers
    already created keep their formatter), a lookup of the key returns the
    stored formatter without a warning, the other keys keep their entries,
    and the handler registry and the live logger are as before. *)
Theorem update_formatters_list_roundtrip
    (this : Logger.t) (w : World) (k : string) (f : Formatter) :
  exists this',
    Logger.update_formatters_list k f (this, w) = (Ok tt, (this', w))
    /\ Logger.get_formatter (Some k) (this', w) = (Ok f, (this', w))
    /\ (forall k', Logger.formatters this' !! k' =
          (if decide (k = k') then Some f else Logger.formatters this !! k'))
    /\ Logger.handlers this' = Logger.handlers this
    /\ Logger.logger this' = Logger.logger this.
Proof.
  eexists. split; [reflexivity|]. split.
  { unfold Logger.get_formatter, bind, Logger.self. simpl.
    by rewrite lookup_insert_eq. }
  split; [|done]. intros k'. simpl. apply lookup_insert.
Qed.

(** X20.  The fallback of [get_formatter] is the entry registered under
    ["default_formatter"] at the time of the call, not the built-in
    default: after that key is overwritten, a lookup of a key that was not
    registered (or of [None]) returns the new formatter. *)
Theorem get_formatter_follows_overwritten_default
    (this : Logger.t) (w : World) (f : Formatter) (key : option string) :
  (key ≫= fun k => Logger.formatters this !! k) = None ->
  exists this' w',
    Logger.update_formatters_list "default_formatter" f (this, w)
      = (Ok tt, (this', w))
    /\ Logger.get_formatter key (this', w) = (Ok f, (this', w')).
Proof.
  intros Hmiss.
  exists (Logger.with_formatters
            (<["default_formatter" := f]> (Logger.formatters this)) this).
  assert (Hget : forall k : option string,
    (k ≫= fun k => <["default_formatter" := f]> (Logger.formatters this) !! k)
      = None ->
    exists w', Logger.get_formatter k
        (Logger.with_formatters
           (<["default_formatter" := f]> (Logger.formatters this)) this, w)
      = (Ok f, (Logger.with_formatters
           (<["default_formatter" := f]> (Logger.formatters this)) this, w'))).
  { intros k Hk. unfold Logger.get_formatter, bind, Logger.self. simpl.
    rewrite Hk. unfold Logger.liftW, print, modify, gmap_getitem. simpl.
    rewrite lookup_insert_eq. by eexists. }
  destruct key as [k|]; simpl in *.
  - destruct (decide (k = "default_formatter")) as [->|Hne].
    + exists w. split; [reflexivity|].
      unfold Logger.get_formatter, bind, Logger.self. simpl.
      by rewrite lookup_insert_eq.
    + destruct (Hget (Some k)) as (w' & Hw').
      { simpl. by rewrite lookup_insert_ne. }
      exists w'. split; [reflexivity|exact Hw'].
  - destruct (Hget None eq_refl) as (w' & Hw').
    exists w'. split; [reflexivity|exact Hw'].
Qed.

(** X21.  [reset_formatters_list] leaves the formatter registry with the
    built-in default as its only entry, whatever was registered (an
    overwritten default included), so afterwards [get_formatter] returns the
    built-in default for every key.  The handler registry, the live logger
    and the process state are untouched. *)
Theorem reset_formatters_list_restores_default
    (this : Logger.t) (w : World) (key : option string) :
  exists this' w',
    Logger.reset_formatters_list (this, w) = (Ok tt, (this', w))
    /\ Logger.formatters this'
         = {[ "default_formatter" := Logger.DEFAULT_FORMATTER ]}
    /\ Logger.handlers this' = Logger.handlers this
    /\ Logger.logger this' = Logger.logger this
    /\ Logger.get_formatter key (this', w)
         = (Ok Logger.DEFAULT_FORMATTER, (this', w')).
Proof.
  set (this' := Logger.with_formatters
                  {[ "default_formatter" := Logger.DEFAULT_FORMATTER ]} this).
  assert (Hrun : Logger.reset_formatters_list (this, w) = (Ok tt, (this', w))).
  { unfold Logger.reset_formatters_list, Logger.formatters_setitem,
      Logger.set_formatters, bind, Logger.self, modify. simpl.
    unfold this', Logger.with_formatters. simpl. by rewrite insert_empty. }
  destruct (get_formatter_run this' w key) as (f & w' & Hget & Hhit & Hmiss).
  { simpl. by rewrite lookup_singleton_eq. }
  exists this', w'. split; [exact Hrun|]. split; [done|]. split; [done|].
  split; [done|]. rewrite Hget. do 2 f_equal.
  destruct (key ≫= fun k => Logger.formatters this' !! k) as [g|] eqn:Hkey.
  - destruct key as [k|]; [|done]. simpl in Hkey.
    rewrite (Hhit k g eq_refl Hkey).
    apply lookup_singleton_Some in Hkey as [_ <-]. done.
  - specialize (Hmiss eq_refl). simpl in Hmiss.
    rewrite lookup_singleton_eq in Hmiss. congruence.
Qed.


(** * What the operations never do *)

Lemma same_outside_grows w w' :
  same_outside_loggers w w' ->
  heap w `prefix_of` heap w' /\ stdout w `prefix_of` stdout w'
  /\ existing (w_os w) ⊆ existing (w_os w').
Proof. intros (-> & -> & ->). done. Qed.

Lemma run_op_world op this w r this' w' :
  run_op op (this, w) = (r, (this', w')) ->
  (touches_loggers op = true /\ same_outside_loggers w w')
  \/ (touches_loggers op = false /\ loggers w' = loggers w
      /\ heap w `prefix_of` heap w' /\ stdout w `prefix_of` stdout w'
      /\ existing (w_os w) ⊆ existing (w_os w')).
Proof.
  destruct op; unfold run_op; intros Hrun.
  - left. split; [done|].
    destruct (reset_handlers_logger_run this w) as (w1 & Hr & Hout & _).
    rewrite (bind_run _ _ _ _ _ Hr) in Hrun. by injection Hrun as _ _ <-.
  - left. split; [done|].
    unfold Logger.remove_handler_logger in Hrun. run_method.
  - left. split; [done|].
    unfold Logger.add_handler_logger in Hrun. run_method.
  - right. unfold Logger.get_all_handlers in Hrun. run_method.
  - right. unfold Logger.get_handler in Hrun. run_method;
      (split_and!; [done|done|done|by eexists|done]).
  - right. unfold Logger.update_handlers_list, Logger.handlers_setitem,
      Logger.set_handlers in Hrun. run_method.
  - right. split; [done|].
    pose proof (reset_handlers_list_run this w) as Hr.
    destruct (Logger.formatters this !! "default_formatter") eqn:Hf.
    + cbn zeta in Hr. destruct (open_error (w_os w) _);
        rewrite Hr in Hrun; injection Hrun as _ _ <-; simpl.
      * split_and!; [done|by eexists|done|done].
      * split_and!; [done| |done|set_solver].
        eexists. by rewrite <- app_assoc.
    + rewrite Hr in Hrun. by injection Hrun as _ _ <-.
  - right. unfold Logger.get_all_formatters in Hrun. run_method.
  - right. unfold Logger.get_formatter in Hrun. run_method;
      (split_and!; [done|done|done|by eexists|done]).
  - right. unfold Logger.update_formatters_list, Logger.formatters_setitem,
      Logger.set_formatters in Hrun. run_method.
  - right. unfold Logger.reset_formatters_list, Logger.formatters_setitem,
      Logger.set_formatters in Hrun. run_method.
  - right. unfold Logger.get_current_logger in Hrun. run_method.
  - left. split; [done|].
    destruct (setup_logger_run module_name log_level this w)
      as (w1 & Hr & Hout & _).
    rewrite Hr in Hrun. by injection Hrun as _ _ <-.
Qed.

(** X22.  The registry operations and the getters never touch a logger:
    after [update_handlers_list], [reset_handlers_list],
    [update_formatters_list], [reset_formatters_list] or any getter, whether
    it returned or raised, every logger has the handlers, threshold and
    propagate flag it had.  Only [setup_logger], [add_handler_logger],
    [remove_handler_logger] and [reset_handlers_logger] change what is
    attached. *)
Theorem registry_operations_leave_loggers
    (op : Op) (this this' : Logger.t) (w w' : World) (r : Result unit) :
  touches_loggers op = false ->
  run_op op (this, w) = (r, (this', w')) ->
  loggers w' = loggers w
  /\ forall l, logging.logger_obj w' l = logging.logger_obj w l.
Proof.
  intros Hop Hrun.
  destruct (run_op_world _ _ _ _ _ _ Hrun) as [[Ht _]|(_ & Hlog & _)];
    [congruence|].
  split; [done|]. intros l. unfold logging.logger_obj. by rewrite Hlog.
Qed.

(** X23.  No public operation, returning or raising, changes or drops an
    existing handler object, a printed line or an existing path: the heap
    and the output only grow at the end, and the set of paths only grows.
    The operations on loggers leave all three exactly as they were. *)
Theorem operations_only_append
    (op : Op) (this this' : Logger.t) (w w' : World) (r : Result unit) :
  run_op op (this, w) = (r, (this', w')) ->
  heap w `prefix_of` heap w'
  /\ stdout w `prefix_of` stdout w'
  /\ existing (w_os w) ⊆ existing (w_os w')
  /\ (touches_loggers op = true -> same_outside_loggers w w').
Proof.
  intros Hrun.
  destruct (run_op_world _ _ _ _ _ _ Hrun) as [[Ht Hout]|(Ht & _ & ? & ? & ?)].
  - destruct (same_outside_grows _ _ Hout) as (? & ? & ?). done.
  - split_and!; try done. congruence.
Qed.

(** X24.  No public operation changes the stored severity: [log_level] and
    [log_level_int] are those set by [__init__], also after a
    [setup_logger] with another level, so handlers reseeded later are
    created on the construction-time level. *)
Theorem stored_severity_is_fixed
    (op : Op) (this this' : Logger.t) (w w' : World) (r : Result unit) :
  run_op op (this, w) = (r, (this', w')) ->
  Logger.log_level this' = Logger.log_level this
  /\ Logger.log_level_int this' = Logger.log_level_int this.
Proof.
  intros Hrun. apply run_op_self in Hrun. by destruct Hrun.
Qed.


(** * The file handler constructor *)

(** X25.  [create_file_handler] opens the file at once, with the mode,
    encoding and error policy it was given, unless [delay] is set.  When
    the open fails it raises the exception of the open (whatever its class:
    an invalid mode, a missing file in a reading mode, a refusal of the
    system) and leaves the process state unchanged: no handler object is
    created.  Otherwise it returns a new reference, the next one of the
    heap, to a file handler with the given arguments, level and formatter;
    the existing handler objects, the loggers and the output are as before,
    and the file exists afterwards unless [delay] is set, in which case
    nothing is opened and the file system is untouched. *)
Theorem create_file_handler_spec
    (n : Z) (f : Formatter) (p mode : string) (enc : option string)
    (delay : bool) (errs : option string) (w : World) :
  match (if delay then None else open_answer (w_os w) p mode enc errs) with
  | Some e =>
      create_file_handler n f p mode enc delay errs w = (Raise e, w)
  | None =>
      exists w',
        create_file_handler n f p mode enc delay errs w
          = (Ok (List.length (heap w)), w')
        /\ heap w' = heap w ++
             [{| h_kind := FileHandler p mode enc delay errs;
                 h_formatter := Some f; h_level := n |}]
        /\ loggers w' = loggers w
        /\ stdout w' = stdout w
        /\ existing (w_os w') =
             (if delay then existing (w_os w)
              else {[ p ]} ∪ also_created (w_os w) p ∪ existing (w_os w))
  end.
Proof.
  destruct delay.
  - eexists. split.
    { unfold create_file_handler, logging.new_FileHandler, logging.new_handler.
      unfold bind at 1. unfold bind at 1. unfold ret at 1.
      apply (configure_new_handler _ _ f n w). }
    done.
  - pose proof (create_file_handler_run n f p mode enc errs w) as Hrun.
    destruct (open_answer (w_os w) p mode enc errs); [done|].
    eexists. split; [exact Hrun|]. done.
Qed.

(** * Runtimes differ on text outside ASCII only *)

Lemma std_log_level_runtime (lvl : option string) :
  is_ascii (py_str lvl) = true ->
  _std_log_level lvl = _std_log_level (RT := ascii_runtime) lvl.
Proof.
  intros Hs. unfold _std_log_level. destruct lvl as [s|].
  - by rewrite (py_upper_ascii s Hs).
  - by rewrite (py_upper_ascii "DEBUG" eq_refl).
Qed.

Lemma setup_logger_runtime (name lvl : option string) :
  is_ascii (py_str lvl) = true ->
  Logger.setup_logger name lvl
  = Logger.setup_logger (RT := ascii_runtime) name lvl.
Proof.
  intros Hs. unfold Logger.setup_logger.
  by rewrite (std_log_level_runtime lvl Hs).
Qed.

Lemma derive_log_path_runtime (dir : option string) (w : World) :
  _derive_log_path dir w = _derive_log_path (RT := ascii_runtime) dir w.
Proof.
  rewrite (derive_log_path_run (RT := RT)).
  rewrite (derive_log_path_run (RT := ascii_runtime)).
  by rewrite (derive_default_dir_run (RT := RT)),
    (derive_default_dir_run (RT := ascii_runtime)).
Qed.

Lemma init_handlers_runtime (st : Logger.State) :
  is_ascii (Logger.log_level st.1) = true ->
  Logger.init_handlers st = Logger.init_handlers (RT := ascii_runtime) st.
Proof.
  destruct st as [this0 w1]. cbn [fst]. intros Hs.
  unfold Logger.init_handlers.
  unfold bind, Logger.self, gmap_getitem, Logger.liftW, Logger.handlers_setitem,
    Logger.set_handlers, modify, ret, raise.
  cbn -[Logger.setup_logger create_rich_console_handler create_file_handler].
  destruct (Logger.formatters this0 !! "default_formatter") as [f|] eqn:Hf;
    [|done].
  destruct (create_rich_console_handler _ _ _ _ _) as [[r|e] w2]; [|done].
  cbn -[Logger.setup_logger create_rich_console_handler create_file_handler].
  rewrite Hf.
  cbn -[Logger.setup_logger create_rich_console_handler create_file_handler].
  destruct (create_file_handler _ _ _ _ _ _ _ _) as [[h|e] w3]; [|done].
  cbn -[Logger.setup_logger create_rich_console_handler create_file_handler].
  by rewrite (setup_logger_runtime _ (Some (Logger.log_level this0)) Hs).
Qed.

(** With a level text in ASCII, or none, a construction does the same in
    every runtime. *)
Lemma init_runtime (name : string) (dir lvl : option string) (w : World) :
  is_ascii (py_str lvl) = true ->
  Logger.__init__ name dir lvl w
  = Logger.__init__ (RT := ascii_runtime) name dir lvl w.
Proof.
  intros Hs. unfold Logger.__init__, bind.
  rewrite derive_log_path_runtime.
  destruct (_derive_log_path dir w) as [[lp|e] w1]; [|done].
  rewrite (std_log_level_runtime lvl Hs), (py_upper_ascii _ Hs).
  rewrite init_handlers_runtime; [done|].
  cbn [fst Logger.log_level]. by rewrite str_upper_ascii.
Qed.

(** What [get_handler] returns does not depend on the runtime: only the
    printed line does. *)
Lemma get_handler_returned this w k :
  returned (Logger.get_handler k (this, w))
  = match dict_get (Logger.handlers this) k with
    | Some h => Some h
    | None => fallback_choice (Logger.handlers this)
    end.
Proof.
  destruct (dict_get (Logger.handlers this) k) as [h|] eqn:Hk.
  - by rewrite (get_handler_hit_run this w k h Hk).
  - destruct (get_handler_miss_run this w k Hk) as (w' & _ & _ & Hrun).
    rewrite Hrun. by destruct (fallback_choice (Logger.handlers this)).
Qed.

End further.

(** * The theorems at the sample process, continued *)

Section further_samples.
#[local] Existing Instance ascii_runtime.

(** The sample runs hand ASCII text only to the runtime, so they come out
    the same in every runtime. *)
Lemma sample_runs_in_every_runtime (RT : PyRuntime) :
  Logger.__init__ (RT := RT) "T" None (Some "DEBUG") sample_world = first_T
  /\ Logger.__init__ (RT := RT) "T" None (Some "DEBUG") (state_after first_T)
     = second_T
  /\ Logger.__init__ (RT := RT) "U" None (Some "DEBUG") (state_after first_T)
     = second_U
  /\ Logger.__init__ (RT := RT) "T" None None sample_world = first_T_no_level
  /\ Logger.setup_logger (RT := RT) (Some "T") (Some "DEBUG")
     = Logger.setup_logger (RT := ascii_runtime) (Some "T") (Some "DEBUG")
  /\ run_op (RT := RT) OpResetHandlersList
     = run_op (RT := ascii_runtime) OpResetHandlersList.
Proof.
  split; [by apply init_runtime|]. split; [by apply init_runtime|].
  split; [by apply init_runtime|]. split; [by apply init_runtime|].
  split; [by apply setup_logger_runtime|]. reflexivity.
Qed.

Lemma attached_first_T : attached (state_after first_T) "T" = [0; 1]%nat.
Proof. vm_compute. reflexivity. Qed.

Lemma remove_handler_logger_detaches_witness :
  exists w',
    Logger.remove_handler_logger "file_handler"
        (sample_logger, state_after first_T)
      = (Ok true, (sample_logger, w'))
    /\ attached w' "T" = [0%nat].
Proof.
  destruct (remove_handler_logger_detaches sample_logger (state_after first_T)
              "file_handler" "T" 1%nat)
    as (w' & Hrun & _ & Hatt & _).
  - reflexivity.
  - reflexivity.
  - rewrite attached_first_T. apply NoDup_cons. split.
    + rewrite list_elem_of_singleton. discriminate.
    + apply NoDup_singleton.
  - exists w'. split; [exact Hrun|].
    rewrite Hatt, attached_first_T. reflexivity.
Defined.

Lemma add_then_remove_handler_logger_witness :
  exists w1 w2,
    Logger.add_handler_logger "x" (Logger.with_logger (Some "T") unbound_logger,
                                   state_after first_T)
      = (Ok true, (Logger.with_logger (Some "T") unbound_logger, w1))
    /\ Logger.remove_handler_logger "x"
         (Logger.with_logger (Some "T") unbound_logger, w1)
       = (Ok true, (Logger.with_logger (Some "T") unbound_logger, w2))
    /\ attached w1 "T" = [0; 1; 7]%nat
    /\ attached w2 "T" = [0; 1]%nat.
Proof.
  destruct (add_then_remove_handler_logger
              (Logger.with_logger (Some "T") unbound_logger)
              (state_after first_T) "x" "T" 7%nat)
    as (w1 & w2 & Hadd & Hrem & Hatt & Hback).
  - reflexivity.
  - reflexivity.
  - rewrite attached_first_T. intros H.
    apply elem_of_cons in H as [H|H]; [discriminate|].
    apply list_elem_of_singleton in H. discriminate.
  - exists w1, w2. split; [exact Hadd|]. split; [exact Hrem|]. split.
    + rewrite Hatt, attached_first_T. reflexivity.
    + unfold attached. rewrite Hback. exact attached_first_T.
Defined.

Lemma add_handler_logger_idempotent_witness :
  exists w1,
    Logger.add_handler_logger "file_handler" (sample_logger, sample_world)
      = (Ok true, (sample_logger, w1))
    /\ Logger.add_handler_logger "file_handler" (sample_logger, w1)
       = (Ok true, (sample_logger, w1))
    /\ attached w1 "T" = [1%nat].
Proof.
  destruct (add_handler_logger_idempotent sample_logger sample_world
              "file_handler" "T" 1%nat) as (w1 & H1 & H2 & Hatt).
  - reflexivity.
  - reflexivity.
  - exists w1. split; [exact H1|]. split; [exact H2|]. rewrite Hatt.
    vm_compute. reflexivity.
Defined.

Lemma no_live_logger_bound_witness :
  Logger.reset_handlers_logger (unbound_logger, sample_world)
    = (Ok false, (unbound_logger, sample_world))
  /\ Logger.add_handler_logger "x" (unbound_logger, sample_world)
     = (Raise (AttributeError
                 "'NoneType' object has no attribute 'addHandler'"),
        (unbound_logger, sample_world))
  /\ Logger.remove_handler_logger "y" (unbound_logger, sample_world)
     = (Ok false, (unbound_logger, sample_world)).
Proof.
  destruct (no_live_logger_bound unbound_logger sample_world "x" eq_refl)
    as (Hreset & Hadd & _).
  destruct (no_live_logger_bound unbound_logger sample_world "y" eq_refl)
    as (_ & _ & Hrem).
  split; [exact Hreset|]. split; [exact Hadd|exact Hrem].
Defined.


Lemma reset_handlers_list_reseeds_witness :
  exists w',
    Logger.reset_handlers_list (sample_logger, sample_world)
      = (Ok tt,
         (Logger.with_handlers
            [("console_handler", 0%nat); ("file_handler", 1%nat)]
            sample_logger, w'))
    /\ loggers w' = loggers sample_world.
Proof.
  destruct (reset_handlers_list_reseeds sample_logger sample_world
              Logger.DEFAULT_FORMATTER)
    as (w' & Hrun & _ & Hlog & _).
  - apply lookup_singleton_eq.
  - reflexivity.
  - exists w'. split; [exact Hrun|exact Hlog].
Defined.

Lemma reset_handlers_list_partial_on_failure_witness :
  exists w',
    Logger.reset_handlers_list (sample_logger, readonly_world)
      = (Raise (OSError "Permission denied"),
         (Logger.with_handlers [("console_handler", 0%nat)] sample_logger, w'))
    /\ loggers w' = loggers readonly_world.
Proof.
  destruct (reset_handlers_list_partial_on_failure sample_logger readonly_world
              Logger.DEFAULT_FORMATTER (OSError "Permission denied"))
    as (w' & Hrun & _ & Hlog & _).
  - apply lookup_singleton_eq.
  - reflexivity.
  - exists w'. split; [exact Hrun|exact Hlog].
Defined.

Lemma setup_logger_sync_when_clean_witness :
  exists w',
    Logger.setup_logger None None (sample_logger, sample_world)
      = (Ok tt, (Logger.with_logger (Some "T") sample_logger, w'))
    /\ synced (Logger.with_logger (Some "T") sample_logger, w')
    /\ attached w' "T" = [0; 1]%nat
    /\ threshold w' "T" = logging.DEBUG.
Proof.
  destruct (setup_logger_sync_when_clean None None sample_logger sample_world)
    as (w' & Hrun & Hsync & _ & Hlvl & _ & Horder).
  - left. reflexivity.
  - exists w'. split; [exact Hrun|]. split; [exact Hsync|].
    split; [|exact Hlvl]. apply Horder.
    change (NoDup [0%nat; 1%nat]). apply NoDup_cons. split.
    + rewrite list_elem_of_singleton. discriminate.
    + apply NoDup_singleton.
Defined.

Lemma setup_logger_empties_previous_witness :
  exists w',
    Logger.setup_logger (Some "U") None (sample_logger, state_after first_T)
      = (Ok tt, (Logger.with_logger (Some "U") sample_logger, w'))
    /\ attached w' "T" = [].
Proof.
  destruct (setup_logger_empties_previous (Some "U") None sample_logger
              (state_after first_T) "T")
    as (w' & Hrun & Hold & _).
  - reflexivity.
  - discriminate.
  - exists w'. split; [exact Hrun|exact Hold].
Defined.

Lemma reset_then_setup_logger_witness :
  exists this1 w1 this2 w2,
    Logger.reset_handlers_list (sample_logger, sample_world)
      = (Ok tt, (this1, w1))
    /\ Logger.setup_logger None None (this1, w1) = (Ok tt, (this2, w2))
    /\ attached w2 "T" = [0; 1]%nat.
Proof.
  destruct (reset_then_setup_logger None None sample_logger sample_world
              Logger.DEFAULT_FORMATTER)
    as (this1 & w1 & this2 & w2 & Hreset & Hsetup & _ & _ & Hatt).
  - apply lookup_singleton_eq.
  - reflexivity.
  - reflexivity.
  - exists this1, w1, this2, w2. split; [exact Hreset|].
    split; [exact Hsetup|exact Hatt].
Defined.

Lemma derive_log_path_result_exists_witness :
  "/app/logs" ∈
    existing (w_os (state_after (_derive_log_path None sample_world))).
Proof.
  assert (Hrun : _derive_log_path None sample_world
            = (Ok "/app/logs",
               state_after (_derive_log_path None sample_world)))
    by (vm_compute; reflexivity).
  exact (proj1 (derive_log_path_result_exists None sample_world _ _ Hrun)).
Defined.


Lemma construct_levels_witness :
  first_T_no_level = (Ok sample_logger_no_level, state_after first_T_no_level)
  /\ Logger.log_level_int sample_logger_no_level = logging.DEBUG
  /\ threshold (state_after first_T_no_level) "T" = logging.INFO.
Proof.
  assert (Hrun : first_T_no_level
            = (Ok sample_logger_no_level, state_after first_T_no_level))
    by (vm_compute; reflexivity).
  destruct (construct_levels "T" None None sample_world
              (state_after first_T_no_level) sample_logger_no_level Hrun)
    as (_ & _ & _ & _ & Hnone & _).
  destruct Hnone as [Hthr Hint].
  split; [exact Hrun|]. split; [exact Hint|exact Hthr].
Defined.

Lemma construct_on_unused_logger_witness :
  attached (state_after first_T) "T" = registry_values sample_logger
  /\ synced (sample_logger, state_after first_T).
Proof.
  destruct (construct_on_unused_logger "T" None (Some "DEBUG") sample_world
              (state_after first_T) sample_logger)
    as (Hatt & _ & Hsync & _).
  - reflexivity.
  - vm_compute. reflexivity.
  - split; [exact Hatt|exact Hsync].
Defined.

Lemma construct_failure_witness :
  Logger.__init__ "T" None (Some "DEBUG") readonly_world
    = (Raise (RuntimeError "Error resolving log path: Permission denied"),
       readonly_world)
  /\ loggers readonly_world = loggers readonly_world.
Proof.
  assert (Hrun : Logger.__init__ "T" None (Some "DEBUG") readonly_world
    = (Raise (RuntimeError "Error resolving log path: Permission denied"),
       readonly_world)) by (vm_compute; reflexivity).
  split; [exact Hrun|].
  exact (proj1 (construct_failure "T" None (Some "DEBUG") readonly_world
                  readonly_world _ Hrun)).
Defined.

Lemma get_handler_miss_without_defaults_witness :
  exists line,
    Logger.get_handler "missing" (unbound_logger, sample_world)
      = (Raise (UnboundLocalError "h"),
         (unbound_logger, with_stdout (fun out => out ++ [line]) sample_world)).
Proof.
  apply (get_handler_miss_without_defaults unbound_logger sample_world
           "missing"); reflexivity.
Defined.


Lemma get_formatter_follows_overwritten_default_witness :
  exists this' w',
    Logger.update_formatters_list "default_formatter"
        {| fmt := "{message}"; style := "{" |} (sample_logger, sample_world)
      = (Ok tt, (this', sample_world))
    /\ Logger.get_formatter None (this', sample_world)
       = (Ok {| fmt := "{message}"; style := "{" |}, (this', w')).
Proof.
  apply (get_formatter_follows_overwritten_default sample_logger sample_world
           {| fmt := "{message}"; style := "{" |} None). reflexivity.
Defined.

Lemma registry_operations_leave_loggers_witness :
  loggers (state_after sample_reset).2 = loggers (state_after first_T)
  /\ attached (state_after sample_reset).2 "T" = [0; 1]%nat.
Proof.
  destruct (registry_operations_leave_loggers OpResetHandlersList
              sample_logger (state_after sample_reset).1
              (state_after first_T) (state_after sample_reset).2
              (fst sample_reset)) as (Hlog & Hobj).
  - reflexivity.
  - vm_compute. reflexivity.
  - split; [exact Hlog|]. unfold attached. rewrite Hobj.
    exact attached_first_T.
Defined.

Lemma operations_only_append_witness :
  heap (state_after first_T) `prefix_of` heap (state_after sample_reset).2
  /\ stdout (state_after first_T) `prefix_of` stdout (state_after sample_reset).2
  /\ List.length (heap (state_after sample_reset).2) = 4%nat.
Proof.
  destruct (operations_only_append OpResetHandlersList sample_logger
              (state_after sample_reset).1 (state_after first_T)
              (state_after sample_reset).2 (fst sample_reset))
    as (Hheap & Hout & _).
  - vm_compute. reflexivity.
  - split; [exact Hheap|]. split; [exact Hout|]. vm_compute. reflexivity.
Defined.

Lemma stored_severity_is_fixed_witness :
  Logger.log_level_int (state_after sample_setup_error).1 = logging.DEBUG
  /\ threshold (state_after sample_setup_error).2 "T" = logging.ERROR.
Proof.
  destruct (stored_severity_is_fixed (OpSetupLogger None (Some "ERROR"))
              sample_logger (state_after sample_setup_error).1 sample_world
              (state_after sample_setup_error).2 (fst sample_setup_error))
    as (_ & Hint).
  - vm_compute. reflexivity.
  - split; [rewrite Hint; reflexivity|]. vm_compute. reflexivity.
Defined.

Lemma create_file_handler_spec_witness :
  create_file_handler logging.INFO Logger.DEFAULT_FORMATTER "/app/x.log" "w"
      None false None readonly_world
    = (Raise (OSError "Permission denied"), readonly_world)
  /\ exists w',
       create_file_handler logging.INFO Logger.DEFAULT_FORMATTER "/app/x.log"
           "w" None true None readonly_world
         = (Ok 0%nat, w')
       /\ existing (w_os w') = existing (w_os readonly_world).
Proof.
  split.
  - exact (create_file_handler_spec logging.INFO Logger.DEFAULT_FORMATTER
             "/app/x.log" "w" None false None readonly_world).
  - destruct (create_file_handler_spec logging.INFO Logger.DEFAULT_FORMATTER
                "/app/x.log" "w" None true None readonly_world)
      as (w' & Hrun & _ & _ & _ & Hex).
    exists w'. split; [exact Hrun|exact Hex].
Defined.

End further_samples.
